(** * UserService (src/services/user/userService.js)

    A shallow embedding of the seven operations of the user service
    ([login], [signUp], [logout], [resignToken], [getUser], [editUser],
    [deleteUser]) together with the collaborators they call: the User model
    and its table, the model instances living on the JavaScript heap, the
    redis session cache, bcrypt, the token utilities and the two loggers.

    An [async] function is read as a computation over an explicit world that
    either returns a value or throws (a rejected promise); [await] is
    sequencing; [try { .. } catch (err) { .. }] is [try_catch]. *)

From Stdlib Require Import ZArith Lia Ascii.
From stdpp Require Import base option list gmap strings pretty.

Local Open Scope Z_scope.
Local Open Scope string_scope.

(** ** JavaScript values *)

(** The primitive values that flow through the service: arguments taken from
    a request, column values, tokens and status codes. Numbers are the
    integers (ids and status codes). *)
Inductive jsval : Type :=
| JUndefined
| JNull
| JBool (b : bool)
| JNum (n : Z)
| JStr (s : string).

#[global] Instance jsval_eq_dec : EqDecision jsval.
Proof. solve_decision. Defined.

(** [a === b] on primitives. *)
Definition strict_eq (a b : jsval) : bool := bool_decide (a = b).

(** Truthiness: [!v] is [negb (truthy v)]. *)
Definition truthy (v : jsval) : bool :=
  match v with
  | JUndefined | JNull => false
  | JBool b => b
  | JNum n => negb (Z.eqb n 0)
  | JStr s => negb (String.eqb s "")
  end.

(** Decimal digits without their trailing zeros. *)
Fixpoint strip_zeros (digits : list Ascii.ascii) : list Ascii.ascii :=
  match digits with
  | [] => []
  | d :: rest =>
      match strip_zeros rest with
      | [] => if Ascii.eqb d "0"%char then [] else [d]
      | rest' => d :: rest'
      end
  end.

(** The exponent form [d.ddde+N] that [String] gives a number from [1e21]
    on. *)
Definition exponent_form (n : Z) : string :=
  let digits := String.list_ascii_of_string (pretty (Z.abs n)) in
  let mantissa :=
    match strip_zeros digits with
    | [] => "0"
    | [d] => String d ""
    | d :: rest => String d (String "."%char (String.string_of_list_ascii rest))
    end in
  (if Z.ltb n 0 then "-" else "") +:+ mantissa +:+ "e+"
  +:+ pretty (Z.of_nat (List.length digits) - 1).

(** [String(v)]: an integer below [1e21] is printed in full, a larger one
    in the exponent form. *)
Definition to_String (v : jsval) : string :=
  match v with
  | JUndefined => "undefined"
  | JNull => "null"
  | JBool true => "true"
  | JBool false => "false"
  | JNum n => if Z.ltb (Z.abs n) (10 ^ 21) then pretty n else exponent_form n
  | JStr s => s
  end.

(** The integer a string of decimal digits, with or without a sign, stands
    for. *)
Definition digit_of (c : Ascii.ascii) : option Z :=
  let n := Z.of_N (Ascii.N_of_ascii c) in
  if Z.leb 48 n && Z.leb n 57 then Some (n - 48) else None.

Fixpoint digits_value (s : string) (acc : Z) : option Z :=
  match s with
  | EmptyString => Some acc
  | String c rest =>
      match digit_of c with
      | Some d => digits_value rest (10 * acc + d)
      | None => None
      end
  end.

Definition integer_of_string (s : string) : option Z :=
  match s with
  | EmptyString => None
  | String "-"%char EmptyString => None
  | String "-"%char rest => Z.opp <$> digits_value rest 0
  | _ => digits_value s 0
  end.

(** A parameter declared [p = null] receives [null] when the argument is
    missing or [undefined]. *)
Definition default_null (v : jsval) : jsval :=
  match v with JUndefined => JNull | _ => v end.

(** ** Response vocabulary (utils/) *)

(** Modelled from the spec: utils/statusCode.js is not among the sources;
    the spec gives the HTTP-like codes 200, 204 (NO_CONTENT), 400, 401 and
    500 (database failure). The property [statusCode.SUCCESS] read by
    [resignToken] is listed nowhere and is kept as a parameter of the
    service ([statusCode_SUCCESS] below). *)
Module statusCode.
Definition OK : jsval := JNum 200.
Definition NO_CONTENT : jsval := JNum 204.
Definition BAD_REQUEST : jsval := JNum 400.
Definition UNAUTHORIZED : jsval := JNum 401.
Definition DB_ERROR : jsval := JNum 500.
End statusCode.

(** Modelled from the spec: utils/responseMessage.js is not among the
    sources; its entries are kept as the names the service uses. *)
Module message.
Inductive t : Type :=
| SUCCESS
| INVALID_USER_INFO
| ALREADY_EXIST_EMAIL
| ALREADY_EXIST_NICKNAME
| INTERNAL_SERVER_ERROR
| FORBIDDEN
| REFRESH_TOKEN_UNNECESSARY
| NULL_VALUE
| DB_ERROR
| BAD_REQUEST.
End message.

(** A reference to a model instance: its index on the heap. *)
Abbreviation ref := nat (only parsing).

(** Modelled from the spec: utils/responseData.js is not among the sources;
    each builder keeps the arguments it is given (the spec: a body
    containing the access token and the refresh token). The last two
    constructors are the payloads [user] and [{'deleted': user}] that
    [getUser] and [deleteUser] build inline. *)
Inductive payload : Type :=
| loginResponse (accessToken refreshToken : jsval)
| signUpResponse (accessToken refreshToken : jsval)
| resignTokenResponse (accessToken refreshToken : jsval)
| userPayload (user : ref)
| deletedPayload (user : ref).

(** Modelled from the spec: utils/response.js is not among the sources; a
    body carries a status, a message and data (success) or a status and a
    message (error). [response(s, m)] without data is [data := None]. *)
Inductive body : Type :=
| response (status : jsval) (msg : message.t) (data : option payload)
| errResponse (status : jsval) (msg : message.t).

(** What an operation hands back to its caller: the array
    [[statusCode, body]], a body alone, or nothing ([undefined]). *)
Inductive value : Type :=
| VPair (code : jsval) (b : body)
| VBody (b : body)
| VUndefined.

Definition is_pair (v : value) : bool :=
  match v with VPair _ _ => true | _ => false end.

Definition is_bare_body (v : value) : bool :=
  match v with VBody _ => true | _ => false end.

(** ** The world *)

(** Modelled from the spec: models/user.js is not among the sources; the
    spec gives the persisted fields id, email, password (hashed), nickname,
    mbti and the soft-delete mark ([paranoid: true] in the comment
    of [deleteUser]). *)
Module Row.
Record t : Type := mk {
  id : Z;
  email : jsval;
  password : jsval;
  nickname : jsval;
  mbti : jsval;
  deleted : bool
}.

Definition get (col : string) (r : t) : jsval :=
  if String.eqb col "id" then JNum (id r)
  else if String.eqb col "email" then email r
  else if String.eqb col "password" then password r
  else if String.eqb col "nickname" then nickname r
  else if String.eqb col "mbti" then mbti r
  else JUndefined.

(** [UPDATE .. SET col = v]; the key column is never rewritten, and a time
    in [deletedAt] is the deleted mark. *)
Definition set (col : string) (v : jsval) (r : t) : t :=
  if String.eqb col "email" then mk (id r) v (password r) (nickname r) (mbti r) (deleted r)
  else if String.eqb col "password" then mk (id r) (email r) v (nickname r) (mbti r) (deleted r)
  else if String.eqb col "nickname" then mk (id r) (email r) (password r) v (mbti r) (deleted r)
  else if String.eqb col "mbti" then mk (id r) (email r) (password r) (nickname r) v (deleted r)
  else if String.eqb col "deletedAt"
    then mk (id r) (email r) (password r) (nickname r) (mbti r) (truthy v)
  else r.

Definition mark_deleted (r : t) : t :=
  mk (id r) (email r) (password r) (nickname r) (mbti r) true.
End Row.

(** Modelled from the spec: the attributes of the model (models/user.js),
    the keys for which an instance has a getter and a setter over its data
    values; they are the persisted fields the spec lists. *)
Definition attributes : list string :=
  ["id"; "email"; "password"; "nickname"; "mbti"].

Definition is_attribute (key : string) : bool :=
  existsb (String.eqb key) attributes.

(** A model instance: an object whose properties are the attribute values it
    was loaded with and whatever else has been assigned to it, plus the
    attributes assigned since it was last written ([changed()]). *)
Record Instance : Type := mkInstance {
  props : gmap string jsval;
  changed : list string
}.

(** One line of output: [logger.error(..)] or [console.log(..)]. *)
Inductive logline : Type :=
| logger_error (line : string)
| console_log (line : string).

Record World : Type := mkWorld {
  table : list Row.t;            (* the User table, in insertion order *)
  autoIncrement : Z;             (* the next primary key *)
  db_faults : list bool;         (* whether the next store calls fail *)
  heap : list Instance;          (* the model instances *)
  redis : gmap string jsval;     (* the session cache *)
  redis_faults : list bool;      (* whether the next cache calls fail *)
  log : list logline             (* output, oldest first *)
}.

Definition set_table (t : list Row.t) (w : World) : World :=
  mkWorld t (autoIncrement w) (db_faults w) (heap w) (redis w) (redis_faults w) (log w).
Definition set_autoIncrement (n : Z) (w : World) : World :=
  mkWorld (table w) n (db_faults w) (heap w) (redis w) (redis_faults w) (log w).
Definition set_db_faults (f : list bool) (w : World) : World :=
  mkWorld (table w) (autoIncrement w) f (heap w) (redis w) (redis_faults w) (log w).
Definition set_heap (h : list Instance) (w : World) : World :=
  mkWorld (table w) (autoIncrement w) (db_faults w) h (redis w) (redis_faults w) (log w).
Definition set_redis (c : gmap string jsval) (w : World) : World :=
  mkWorld (table w) (autoIncrement w) (db_faults w) (heap w) c (redis_faults w) (log w).
Definition set_redis_faults (f : list bool) (w : World) : World :=
  mkWorld (table w) (autoIncrement w) (db_faults w) (heap w) (redis w) f (log w).
Definition set_log (l : list logline) (w : World) : World :=
  mkWorld (table w) (autoIncrement w) (db_faults w) (heap w) (redis w) (redis_faults w) l.

(** ** Computations *)

Inductive outcome (A : Type) : Type :=
| Return (a : A)
| Throw (err : string).
Arguments Return {A} a.
Arguments Throw {A} err.

Definition M (A : Type) : Type := World -> outcome A * World.

#[global] Instance M_ret : MRet M := fun A a w => (Return a, w).

#[global] Instance M_bind : MBind M := fun A B f m w =>
  match m w with
  | (Return a, w') => f a w'
  | (Throw err, w') => (Throw err, w')
  end.

Definition throw {A : Type} (err : string) : M A := fun w => (Throw err, w).

(** [try { m } catch (err) { h err }]: the effects of [m] up to the throw
    stay. *)
Definition try_catch {A : Type} (m : M A) (h : string -> M A) : M A := fun w =>
  match m w with
  | (Return a, w') => (Return a, w')
  | (Throw err, w') => h err w'
  end.

(** A pure call of a library that may throw. *)
Definition lift {A : Type} (o : outcome A) : M A := fun w => (o, w).

Definition emit (l : logline) : M unit := fun w =>
  (Return tt, set_log (log w ++ [l]) w).

Definition gets {A : Type} (f : World -> A) : M A := fun w => (Return (f w), w).

Definition modify (f : World -> World) : M unit := fun w => (Return tt, f w).

(** ** The heap of model instances *)

Definition alloc (o : Instance) : M ref := fun w =>
  (Return (List.length (heap w)), set_heap (heap w ++ [o]) w).

(** Reading through a reference that holds no object is the [TypeError] of
    a property access on [null] or [undefined]. *)
Definition deref (user : ref) : M Instance := fun w =>
  match heap w !! user with
  | Some o => (Return o, w)
  | None => (Throw "TypeError", w)
  end.

Definition store (user : ref) (o : Instance) : M unit :=
  modify (fun w => set_heap (<[user := o]> (heap w)) w).

Definition read_prop (key : string) (o : Instance) : jsval :=
  default JUndefined (props o !! key).

(** [user[key]] *)
Definition get_prop (user : ref) (key : string) : M jsval :=
  o ← deref user; mret (read_prop key o).

(** Assigning an attribute goes through its setter, which records the
    attribute as changed; any other key becomes a plain property. *)
Definition assign (key : string) (v : jsval) (o : Instance) : Instance :=
  mkInstance (<[key := v]> (props o))
             (if is_attribute key then key :: changed o else changed o).

(** [user[key] = v]: the object is updated in place. *)
Definition set_prop (user : ref) (key : string) (v : jsval) : M unit :=
  o ← deref user; store user (assign key v o).

(** [user.getDataValue(key)] *)
Definition getDataValue (user : ref) (key : string) : M jsval :=
  o ← deref user;
  mret (if is_attribute key then read_prop key o else JUndefined).

(** ** The User model (sequelize over the table) *)

(** One round trip to the database; the oracle of the world decides whether
    it fails, for whatever reason a database fails. *)
Definition db_query : M unit := fun w =>
  let w' := set_db_faults (tail (db_faults w)) w in
  match db_faults w with
  | true :: _ => (Throw "SequelizeDatabaseError", w')
  | _ => (Return tt, w')
  end.

Module User.
(** [WHERE col = v], soft-deleted rows left out ([paranoid]). The values
    that reach a lookup have the type of the column: the emails and
    nicknames of the service are strings, and [findByPk] hands over the
    key as the database reads it. *)
Definition matches (col : string) (v : jsval) (r : Row.t) : bool :=
  negb (Row.deleted r) && strict_eq (Row.get col r) v.

Definition select (col : string) (v : jsval) (t : list Row.t) : option Row.t :=
  List.find (matches col v) t.

(** The instance built from a row, with the chosen attributes. *)
Definition load (attrs : list string) (r : Row.t) : Instance :=
  mkInstance (list_to_map ((fun a => (a, Row.get a r)) <$> attrs)) [].

(** [User.findOne({ where: { col: v }, attributes: attrs })] *)
Definition findOne (col : string) (v : jsval) (attrs : list string) : M (option ref) :=
  db_query;;
  t ← gets table;
  match select col v t with
  | None => mret None
  | Some r => user ← alloc (load attrs r); mret (Some user)
  end.

(** [User.findByPk(key)]: no query and no user for [null] and
    [undefined]; a number or a string is looked up, the database reading a
    string of digits as the number it stands for; any other argument is
    refused. *)
Definition findByPk (key : jsval) : M (option ref) :=
  match key with
  | JUndefined | JNull => mret None
  | JNum n => findOne "id" (JNum n) attributes
  | JStr s =>
      match integer_of_string s with
      | Some n => findOne "id" (JNum n) attributes
      | None => findOne "id" (JStr s) attributes
      end
  | JBool _ => throw "Error: Argument passed to findByPk is invalid"
  end.

(** [User.create({ email, password, nickname })]: the row gets the next
    key; the instance holds the key and the values given. *)
Definition create (email password nickname : jsval) : M ref :=
  db_query;;
  n ← gets autoIncrement;
  t ← gets table;
  modify (fun w => set_autoIncrement (n + 1)
                     (set_table (t ++ [Row.mk n email password nickname JNull false]) w));;
  alloc (mkInstance (list_to_map [("id", JNum n); ("email", email);
                                  ("password", password); ("nickname", nickname)]) []).

(** The row an instance stands for. *)
Definition is_row_of (o : Instance) (r : Row.t) : bool :=
  strict_eq (read_prop "id" o) (JNum (Row.id r)).

Definition write_back (o : Instance) (r : Row.t) : Row.t :=
  if is_row_of o r
  then foldr (fun col r => Row.set col (read_prop col o) r) r (changed o)
  else r.

(** [user.save()]: without a changed attribute nothing is sent to the
    database; otherwise the changed attributes are written to the row of
    the instance. *)
Definition save (user : ref) : M unit :=
  o ← deref user;
  match changed o with
  | [] => mret tt
  | _ :: _ =>
      db_query;;
      modify (fun w => set_table (write_back o <$> table w) w);;
      store user (mkInstance (props o) [])
  end.

(** The time of a deletion, as the instance and the row hold it; which
    time it is plays no role. *)
Definition deletion_time : jsval := JStr "<Date>".

(** The instance with [deletedAt] set. *)
Definition deleting (o : Instance) : Instance :=
  mkInstance (<["deletedAt" := deletion_time]> (props o)) ("deletedAt" :: changed o).

(** [user.destroy(..)] of a [paranoid] model: [deletedAt] is set on the
    instance, which is then saved, with whatever other change it has
    pending. *)
Definition destroy (user : ref) : M unit :=
  o ← deref user;
  store user (deleting o);;
  save user.
End User.

(** ** The session cache *)

(** [redisClient.del(key)] as [logout] calls it: the call is not awaited, so
    it hands back at once and a failure of the cache stays unobserved. *)
Definition redisClient_del (key : string) : M unit := fun w =>
  let w' := set_redis_faults (tail (redis_faults w)) w in
  match redis_faults w with
  | true :: _ => (Return tt, w')
  | _ => (Return tt, set_redis (delete key (redis w')) w')
  end.

(** A collaborator that works on the session cache only. *)
Definition on_redis {A : Type}
    (f : gmap string jsval -> outcome A * gmap string jsval) : M A := fun w =>
  let '(o, c) := f (redis w) in (o, set_redis c w).

(** ** What the service imports *)

(** utils/constants.js is not among the sources: the three values
    of [resignTokenStatus] are parameters. *)
Module resignTokenStatus.
Record t : Type := mk {
  RESIGN_ACCESS_TOKEN : jsval;
  UNAUTHORIZED : jsval;
  UNNECESSARY : jsval
}.
End resignTokenStatus.

(** bcrypt, utils/jwtUtil.js and the constants are parameters of the
    service. The token utilities may read and write the session cache and
    may throw; bcrypt may throw. *)
Record Imports : Type := mkImports {
  bcrypt_hashSync : string -> Z -> outcome jsval;
  bcrypt_compareSync : string -> jsval -> outcome bool;
  jwt_signTokens : jsval -> gmap string jsval -> outcome (jsval * jsval) * gmap string jsval;
  jwt_resignAccessToken :
    jsval -> jsval -> gmap string jsval -> outcome (jsval * jsval) * gmap string jsval;
  status : resignTokenStatus.t;
  statusCode_SUCCESS : jsval
}.

(** ** The service *)

(** [for (let key in obj) { .. }] over the entries of an object literal, in
    the order they were written, threading the loop's local state. *)
Fixpoint for_in {S : Type} (entries : list (string * jsval))
    (step : string -> jsval -> S -> M S) (s : S) : M S :=
  match entries with
  | [] => mret s
  | (key, v) :: rest => s' ← step key v s; for_in rest step s'
  end.

(** Each [try { .. } catch (err) { .. }] of the service is given as its two
    blocks, [op_try] and [op_catch]. *)
Section UserService.
Context (ext : Imports).

(** [signTokens(userId)] and [resignAccessToken(accessToken, refreshToken)]
    of utils/jwtUtil.js. *)
Definition signTokens (userId : jsval) : M (jsval * jsval) :=
  on_redis (jwt_signTokens ext userId).

Definition resignAccessToken (accessToken refreshToken : jsval) : M (jsval * jsval) :=
  on_redis (jwt_resignAccessToken ext accessToken refreshToken).

Definition login_try (email password : string) : M value :=
  user ← User.findOne "email" (JStr email) ["id"; "password"];
  match user with
  | None =>
      mret (VPair statusCode.BAD_REQUEST
              (errResponse statusCode.BAD_REQUEST message.INVALID_USER_INFO))
  | Some user =>
      encodedPassword ← getDataValue user "password";
      emit (console_log (to_String encodedPassword));;
      shown ← lift (bcrypt_compareSync ext password encodedPassword);
      emit (console_log (to_String (JBool shown)));;
      isValidPassword ← lift (bcrypt_compareSync ext password encodedPassword);
      if negb isValidPassword then
        mret (VPair statusCode.BAD_REQUEST
                (errResponse statusCode.BAD_REQUEST message.INVALID_USER_INFO))
      else
        userId ← getDataValue user "id";
        '(accessToken, refreshToken) ← signTokens userId;
        let data := loginResponse accessToken refreshToken in
        mret (VPair statusCode.OK
                (response statusCode.OK message.SUCCESS (Some data)))
  end.

Definition login_catch (err : string) : M value :=
  emit (logger_error ("login Service Err: " +:+ err));;
  mret (VPair statusCode.DB_ERROR
          (errResponse statusCode.DB_ERROR message.INTERNAL_SERVER_ERROR)).

Definition login (email password : string) : M value :=
  try_catch (login_try email password) login_catch.

Definition signUp_try (email password nickname : string) : M value :=
  isExistEmail ← User.findOne "email" (JStr email) attributes;
  match isExistEmail with
  | Some _ =>
      mret (VPair statusCode.BAD_REQUEST
              (errResponse statusCode.BAD_REQUEST message.ALREADY_EXIST_EMAIL))
  | None =>
      isExistNickname ← User.findOne "nickname" (JStr nickname) attributes;
      match isExistNickname with
      | Some _ =>
          mret (VPair statusCode.BAD_REQUEST
                  (errResponse statusCode.BAD_REQUEST message.ALREADY_EXIST_NICKNAME))
      | None =>
          encryptedPassword ← lift (bcrypt_hashSync ext password 10);
          newUser ← User.create (JStr email) encryptedPassword (JStr nickname);
          userId ← get_prop newUser "user_id";
          '(accessToken, refreshToken) ← signTokens userId;
          let data := signUpResponse accessToken refreshToken in
          mret (VPair statusCode.OK
                  (response statusCode.OK message.SUCCESS (Some data)))
      end
  end.

Definition signUp_catch (err : string) : M value :=
  emit (logger_error ("signUp Service Err: " +:+ err));;
  mret (VPair statusCode.DB_ERROR
          (errResponse statusCode.DB_ERROR message.INTERNAL_SERVER_ERROR)).

Definition signUp (email password nickname : string) : M value :=
  try_catch (signUp_try email password nickname) signUp_catch.

Definition logout (userId : jsval) : M value :=
  redisClient_del (to_String userId);;
  mret (VPair statusCode.OK (response statusCode.OK message.SUCCESS None)).

Definition resignToken (accessToken refreshToken : jsval) : M value :=
  '(result, newAccessToken) ← resignAccessToken accessToken refreshToken;
  if strict_eq result (resignTokenStatus.RESIGN_ACCESS_TOKEN (status ext)) then
    let data := resignTokenResponse newAccessToken refreshToken in
    mret (VPair statusCode.OK
            (response (statusCode_SUCCESS ext) message.SUCCESS (Some data)))
  else if strict_eq result (resignTokenStatus.UNAUTHORIZED (status ext)) then
    mret (VPair statusCode.UNAUTHORIZED
            (errResponse statusCode.UNAUTHORIZED message.FORBIDDEN))
  else if strict_eq result (resignTokenStatus.UNNECESSARY (status ext)) then
    mret (VPair statusCode.BAD_REQUEST
            (errResponse statusCode.BAD_REQUEST message.REFRESH_TOKEN_UNNECESSARY))
  else mret VUndefined.

Definition getUser_try (userId : jsval) : M value :=
  user ← User.findByPk userId;
  match user with
  | Some user =>
      mret (VBody (response statusCode.OK message.SUCCESS (Some (userPayload user))))
  | None =>
      mret (VBody (errResponse statusCode.NO_CONTENT message.NULL_VALUE))
  end.

(** The handler shared, to the letter, by [getUser], [editUser] and
    [deleteUser]. *)
Definition db_error_catch (err : string) : M value :=
  emit (console_log err);;
  mret (VBody (errResponse statusCode.DB_ERROR message.DB_ERROR)).

Definition getUser (userId : jsval) : M value :=
  try_catch (getUser_try userId) db_error_catch.

(** The body of the loop of [editUser]; [updatedData] is the loop's list. *)
Definition editUser_step (user : ref) (key : string) (v : jsval)
    (updatedData : list (string * jsval)) : M (list (string * jsval)) :=
  current ← get_prop user key;
  if strict_eq current v || negb (truthy v) then mret updatedData
  else
    set_prop user key v;;
    mret (updatedData ++ [(key, v)])%list.

Definition editUser_try (user : ref) : M value :=
  User.save user;;
  mret (VBody (response statusCode.OK message.SUCCESS None)).

(** [{ newNickname, newMbti, newPassword }] *)
Definition dataToEdit (newNickname newMbti newPassword : jsval)
    : list (string * jsval) :=
  [("newNickname", newNickname); ("newMbti", newMbti); ("newPassword", newPassword)].

Definition editUser (user : ref) (newNickname newMbti newPassword : jsval) : M value :=
  let newNickname := default_null newNickname in
  let newMbti := default_null newMbti in
  let newPassword := default_null newPassword in
  updatedData ← for_in (dataToEdit newNickname newMbti newPassword)
                       (editUser_step user) [];
  if Nat.eqb (List.length updatedData) 0 then
    mret (VBody (errResponse statusCode.BAD_REQUEST message.BAD_REQUEST))
  else
    try_catch (editUser_try user) db_error_catch.

Definition deleteUser_try (user : ref) : M value :=
  email ← get_prop user "email";
  password ← get_prop user "password";
  User.destroy user;;
  mret (VBody (response statusCode.OK message.SUCCESS (Some (deletedPayload user)))).

Definition deleteUser (user : ref) : M value :=
  try_catch (deleteUser_try user) db_error_catch.

End UserService.

(** ** A concrete environment

    A stand-in for the imports, used to run the service: the hash of a
    password is the password behind a prefix, a token names the id it was
    signed for, and the reissue decision is read off the access token. *)
Module Sample.
Definition st : resignTokenStatus.t :=
  resignTokenStatus.mk (JStr "RESIGN_ACCESS_TOKEN") (JStr "UNAUTHORIZED") (JStr "UNNECESSARY").

Definition hashSync (password : string) (rounds : Z) : outcome jsval :=
  Return (JStr ("$2b$" +:+ password)).

Definition compareSync (password : string) (encoded : jsval) : outcome bool :=
  Return (strict_eq encoded (JStr ("$2b$" +:+ password))).

Definition sign (userId : jsval) (cache : gmap string jsval)
    : outcome (jsval * jsval) * gmap string jsval :=
  let refresh := JStr ("refresh:" +:+ to_String userId) in
  (Return (JStr ("access:" +:+ to_String userId), refresh),
   <[to_String userId := refresh]> cache).

Definition resign (accessToken refreshToken : jsval) (cache : gmap string jsval)
    : outcome (jsval * jsval) * gmap string jsval :=
  match accessToken with
  | JStr "expired" => (Return (JStr "RESIGN_ACCESS_TOKEN", JStr "access:renewed"), cache)
  | JStr "forged" => (Return (JStr "UNAUTHORIZED", JUndefined), cache)
  | JStr "valid" => (Return (JStr "UNNECESSARY", JUndefined), cache)
  | JStr "odd" => (Return (JStr "EXPIRED_REFRESH_TOKEN", JUndefined), cache)
  | _ => (Throw "JsonWebTokenError", cache)
  end.

Definition ext : Imports :=
  mkImports hashSync compareSync sign resign st JUndefined.

Definition alice : Row.t :=
  Row.mk 1 (JStr "alice@pay.here") (JStr "$2b$secret") (JStr "alice") (JStr "INTJ") false.

(** An empty service. *)
Definition empty : World := mkWorld [] 1 [] [] ∅ [] [].

(** One user in the table, loaded as instance 0 (as [findByPk] does), and a
    cached session for her. *)
Definition w1 : World :=
  mkWorld [alice] 2 [] [User.load attributes alice]
          {[ "1" := JStr "refresh:1" ]} [] [].

(** The same with the database failing at its next call, and with the
    cache failing at its next call. *)
Definition db_down : World := set_db_faults [true] w1.
Definition cache_down : World := set_redis_faults [true] w1.
End Sample.

(** The same environment with a token utility that signs for numeric ids
    only and throws on anything else. *)
Module Strict.
Definition sign (userId : jsval) (cache : gmap string jsval)
    : outcome (jsval * jsval) * gmap string jsval :=
  match userId with
  | JNum _ => Sample.sign userId cache
  | _ => (Throw "TypeError: id is not a number", cache)
  end.

Definition ext : Imports :=
  mkImports Sample.hashSync Sample.compareSync sign Sample.resign Sample.st JUndefined.
End Strict.

(** The same environment with bcrypt out of order, and with the token
    utility out of order. *)
Module Faulty.
Definition hashSync (password : string) (rounds : Z) : outcome jsval :=
  Throw "Error: bcrypt".

Definition compareSync (password : string) (encoded : jsval) : outcome bool :=
  Throw "Error: bcrypt".

Definition sign (userId : jsval) (cache : gmap string jsval)
    : outcome (jsval * jsval) * gmap string jsval :=
  (Throw "JsonWebTokenError", cache).

Definition no_bcrypt : Imports :=
  mkImports hashSync compareSync Sample.sign Sample.resign Sample.st JUndefined.

Definition no_tokens : Imports :=
  mkImports Sample.hashSync Sample.compareSync sign Sample.resign Sample.st JUndefined.
End Faulty.

(** Two users in the table; the instance of the first, loaded as instance
    0, has a new nickname assigned and not yet saved. *)
Module Pending.
Definition bob : Row.t :=
  Row.mk 2 (JStr "bob@pay.here") (JStr "$2b$hunter2") (JStr "bob") JNull false.

Definition w2 : World :=
  mkWorld [Sample.alice; bob] 3 []
          [assign "nickname" (JStr "ally") (User.load attributes Sample.alice)]
          ∅ [] [].

(** The same with the database failing at its next call. *)
Definition db_down : World := set_db_faults [true] w2.
End Pending.

(** ** Vocabulary of the statements *)

(** [m] hands back a value in every world, never throws, and the value
    satisfies [P]. *)
Definition always {A : Type} (P : A -> Prop) (m : M A) : Prop :=
  forall w, exists a w', m w = (Return a, w') /\ P a.

(** Whatever [m] hands back satisfies [P]. *)
Definition on_return {A : Type} (P : A -> Prop) (m : M A) : Prop :=
  forall w a w', m w = (Return a, w') -> P a.

(** The next [n] calls to the database succeed. *)
Definition db_ok (n : nat) (w : World) : Prop :=
  Forall (fun fault => fault = false) (take n (db_faults w)).

(** The next [n] calls to the database succeed and the one after them
    fails. *)
Definition db_fails_at (n : nat) (w : World) : Prop :=
  db_ok n w /\ db_faults w !! n = Some true.

(** The world after one call to the database that changed no row. *)
Definition tick (w : World) : World := set_db_faults (tail (db_faults w)) w.

(** Some user that is not deleted has [v] in column [col]. *)
Definition taken (col : string) (v : jsval) (t : list Row.t) : Prop :=
  exists r, r ∈ t /\ Row.deleted r = false /\ Row.get col r = v.

(** The result of a run and the world it leaves. *)
Definition result {A : Type} (run : outcome A * World) : outcome A := fst run.
Definition after {A : Type} (run : outcome A * World) : World := snd run.

(** What the loop of [editUser] makes of an instance [o] and of its list
    [updatedData], entry by entry. *)
Definition skipped (key : string) (v : jsval) (o : Instance) : bool :=
  strict_eq (read_prop key o) v || negb (truthy v).

Fixpoint edit_loop (entries : list (string * jsval)) (o : Instance)
    (updatedData : list (string * jsval)) : Instance * list (string * jsval) :=
  match entries with
  | [] => (o, updatedData)
  | (key, v) :: rest =>
      if skipped key v o then edit_loop rest o updatedData
      else edit_loop rest (assign key v o) (updatedData ++ [(key, v)])
  end.

(** The responses the statements name. *)
Definition invalid_user_info : value :=
  VPair (JNum 400) (errResponse (JNum 400) message.INVALID_USER_INFO).

Definition internal_server_error : value :=
  VPair statusCode.DB_ERROR
        (errResponse statusCode.DB_ERROR message.INTERNAL_SERVER_ERROR).

Definition db_error : value :=
  VBody (errResponse statusCode.DB_ERROR message.DB_ERROR).

(** The shape of what a run hands back to the caller. *)
Definition hands_back_pair (run : outcome value * World) : Prop :=
  exists code b, result run = Return (VPair code b).

Definition hands_back_body (run : outcome value * World) : Prop :=
  exists b, result run = Return (VBody b).

Definition never_throws {A : Type} (run : outcome A * World) : Prop :=
  exists a, result run = Return a.

(** The run hands back [v], and the last line it wrote is [line]. *)
Definition answers_and_logs (run : outcome value * World) (v : value) (line : logline)
    : Prop :=
  result run = Return v /\ last (log (after run)) = Some line.

(** The persistent part of the world: the rows and the key counter. *)
Definition store_of (w : World) : list Row.t * Z := (table w, autoIncrement w).

(** [m] leaves the rows and the key counter as they are, in every world,
    whether it returns or throws. *)
Definition keeps_store {A : Type} (m : M A) : Prop :=
  forall w, store_of (after (m w)) = store_of w.

(** * Properties *)

(** ** Sequencing *)

Lemma bind_run {A B : Type} (m : M A) (f : A -> M B) (w : World) :
  (m ≫= f) w =
  match m w with
  | (Return a, w') => f a w'
  | (Throw err, w') => (Throw err, w')
  end.
Proof. reflexivity. Qed.

Lemma on_return_ret {A : Type} (P : A -> Prop) (a : A) :
  P a -> on_return P (mret a).
Proof. intros HP w a' w' [= <- _]. exact HP. Qed.

Lemma on_return_bind {A B : Type} (P : B -> Prop) (m : M A) (f : A -> M B) :
  (forall a, on_return P (f a)) -> on_return P (m ≫= f).
Proof.
  intros Hf w b w'. rewrite bind_run.
  destruct (m w) as [[a|err] w1]; [apply Hf | discriminate].
Qed.

Lemma always_ret {A : Type} (P : A -> Prop) (a : A) :
  P a -> always P (mret a).
Proof. intros HP w. exists a, w. split; [reflexivity | exact HP]. Qed.

Lemma always_emit_then {A : Type} (P : A -> Prop) (l : logline) (m : M A) :
  always P m -> always P (emit l;; m).
Proof. intros Hm w. rewrite bind_run. apply Hm. Qed.

(** A handler that cannot fail closes a [try] block whose values are fine. *)
Lemma always_try_catch {A : Type} (P : A -> Prop) (m : M A) (h : string -> M A) :
  on_return P m -> (forall err, always P (h err)) -> always P (try_catch m h).
Proof.
  intros Hm Hh w. unfold try_catch.
  destruct (m w) as [[a|err] w1] eqn:E.
  - exists a, w1. split; [reflexivity | exact (Hm _ _ _ E)].
  - apply Hh.
Qed.

Lemma try_catch_throw {A : Type} (m : M A) (h : string -> M A) w err w1 :
  m w = (Throw err, w1) -> try_catch m h w = h err w1.
Proof. intros H. unfold try_catch. rewrite H. reflexivity. Qed.

Ltac shape :=
  repeat first
    [ apply on_return_ret; reflexivity
    | apply always_ret; reflexivity
    | apply always_emit_then
    | apply on_return_bind; intros ?
    | match goal with
      | |- on_return _ (match ?x with _ => _ end) => destruct x
      | |- on_return _ (if ?b then _ else _) => destruct b
      | |- on_return _ (let _ := _ in _) => cbv zeta
      end ].

Lemma login_catch_pair err : always (fun v => is_pair v = true) (login_catch err).
Proof. unfold login_catch. shape. Qed.

Lemma signUp_catch_pair err : always (fun v => is_pair v = true) (signUp_catch err).
Proof. unfold signUp_catch. shape. Qed.

Lemma db_error_catch_body err : always (fun v => is_bare_body v = true) (db_error_catch err).
Proof. unfold db_error_catch. shape. Qed.

Lemma login_pair ext email password :
  always (fun v => is_pair v = true) (login ext email password).
Proof.
  apply always_try_catch; [| apply login_catch_pair].
  unfold login_try. shape.
Qed.

Lemma signUp_pair ext email password nickname :
  always (fun v => is_pair v = true) (signUp ext email password nickname).
Proof.
  apply always_try_catch; [| apply signUp_catch_pair].
  unfold signUp_try. shape.
Qed.

Lemma logout_pair userId : always (fun v => is_pair v = true) (logout userId).
Proof.
  intros w. unfold logout. rewrite bind_run.
  destruct (redisClient_del (to_String userId) w) as [[[]|err] w1] eqn:E.
  - eexists _, w1. split; reflexivity.
  - unfold redisClient_del in E. destruct (redis_faults w) as [|[] ?]; discriminate.
Qed.

Lemma getUser_body userId : always (fun v => is_bare_body v = true) (getUser userId).
Proof.
  apply always_try_catch; [| apply db_error_catch_body].
  unfold getUser_try. shape.
Qed.

Lemma deleteUser_body user : always (fun v => is_bare_body v = true) (deleteUser user).
Proof.
  apply always_try_catch; [| apply db_error_catch_body].
  unfold deleteUser_try. shape.
Qed.

(** ** The store *)

Lemma db_ok_tick n w : db_ok (S n) w -> db_ok n (tick w).
Proof.
  unfold db_ok, tick. destruct w as [t k f h c rf lg]; simpl.
  destruct f as [|b f]; simpl; [intros _; destruct n; constructor |].
  intros H. inversion H; assumption.
Qed.

Lemma db_ok_weaken n m w : (m <= n)%nat -> db_ok n w -> db_ok m w.
Proof.
  unfold db_ok. generalize (db_faults w). intros l. revert n m.
  induction l as [|b l IH]; intros n m Hle H.
  - rewrite take_nil. constructor.
  - destruct m; [constructor |]. destruct n; [lia |].
    simpl in *. inversion H; subst. constructor; [reflexivity |].
    apply (IH n m); [lia | assumption].
Qed.

Lemma db_query_ok n w : db_ok (S n) w -> db_query w = (Return tt, tick w).
Proof.
  unfold db_ok, db_query, tick. destruct (db_faults w) as [|[] f]; simpl; try reflexivity.
  intros H. inversion H; discriminate.
Qed.

Lemma findOne_ok n col v attrs w :
  db_ok (S n) w ->
  User.findOne col v attrs w =
  match User.select col v (table w) with
  | None => (Return None, tick w)
  | Some r => (Return (Some (List.length (heap w))),
               set_heap (heap w ++ [User.load attrs r]) (tick w))
  end.
Proof.
  intros H. unfold User.findOne. rewrite bind_run, (db_query_ok n w H).
  unfold gets, alloc. rewrite bind_run. change (table (tick w)) with (table w).
  destruct (User.select col v (table w)); reflexivity.
Qed.

Lemma select_None col v t : User.select col v t = None <-> ~ taken col v t.
Proof.
  unfold User.select, taken. split.
  - intros H [r (Hin & Hd & Hv)]. apply list_elem_of_In in Hin.
    pose proof (find_none _ _ H r Hin) as Hm. unfold User.matches, strict_eq in Hm.
    rewrite Hd, Hv in Hm. simpl in Hm. rewrite bool_decide_eq_false in Hm. auto.
  - intros H. destruct (find _ t) as [r|] eqn:E; [| reflexivity].
    exfalso. apply H. apply find_some in E as [Hin Hm]. exists r.
    unfold User.matches, strict_eq in Hm. apply andb_prop in Hm as [Hd Hv].
    apply negb_true_iff in Hd. apply bool_decide_eq_true in Hv.
    rewrite list_elem_of_In. auto.
Qed.

Lemma taken_select col v t : taken col v t -> exists r, User.select col v t = Some r.
Proof.
  intros H. destruct (User.select col v t) as [r|] eqn:E; [eauto |].
  apply select_None in E. contradiction.
Qed.

Lemma lookup_alloc (h : list Instance) (o : Instance) :
  ((h ++ [o])%list : list Instance) !! List.length h = Some o.
Proof. rewrite lookup_app_r by lia. rewrite Nat.sub_diag. reflexivity. Qed.

Lemma load_password r : read_prop "password" (User.load ["id"; "password"] r) = Row.password r.
Proof. reflexivity. Qed.

Lemma load_id r : read_prop "id" (User.load ["id"; "password"] r) = JNum (Row.id r).
Proof. reflexivity. Qed.

Lemma deref_run w user o : heap w !! user = Some o -> deref user w = (Return o, w).
Proof. intros H. unfold deref. rewrite H. reflexivity. Qed.

Lemma get_prop_run w user o key :
  heap w !! user = Some o -> get_prop user key w = (Return (read_prop key o), w).
Proof. intros H. unfold get_prop. rewrite bind_run, (deref_run w user o H). reflexivity. Qed.

Lemma getDataValue_run w user o key :
  heap w !! user = Some o ->
  is_attribute key = true ->
  getDataValue user key w = (Return (read_prop key o), w).
Proof.
  intros H Ha. unfold getDataValue. rewrite bind_run, (deref_run w user o H), Ha.
  reflexivity.
Qed.

Lemma set_prop_run w user o key v :
  heap w !! user = Some o ->
  set_prop user key v w = (Return tt, set_heap (<[user := assign key v o]> (heap w)) w).
Proof. intros H. unfold set_prop. rewrite bind_run, (deref_run w user o H). reflexivity. Qed.

(** ** login *)

Lemma try_catch_result {A : Type} (m : M A) (h : string -> M A) w :
  result (try_catch m h w) =
  match result (m w) with
  | Return a => Return a
  | Throw err => result (h err (after (m w)))
  end.
Proof. unfold try_catch, result, after. destruct (m w) as [[a|err] w1]; reflexivity. Qed.

Lemma login_catch_run err w :
  login_catch err w =
  (Return internal_server_error,
   set_log (log w ++ [logger_error ("login Service Err: " +:+ err)]) w).
Proof. reflexivity. Qed.

Lemma signUp_catch_run err w :
  signUp_catch err w =
  (Return internal_server_error,
   set_log (log w ++ [logger_error ("signUp Service Err: " +:+ err)]) w).
Proof. reflexivity. Qed.

Lemma db_error_catch_run err w :
  db_error_catch err w = (Return db_error, set_log (log w ++ [console_log err]) w).
Proof. reflexivity. Qed.

Lemma login_try_unknown ext email password w :
  db_ok 1 w ->
  User.select "email" (JStr email) (table w) = None ->
  login_try ext email password w = (Return invalid_user_info, tick w).
Proof.
  intros Hdb Hsel. unfold login_try.
  rewrite bind_run, (findOne_ok 0 _ _ _ w Hdb), Hsel. reflexivity.
Qed.

Lemma login_try_known ext email password w r :
  db_ok 1 w ->
  User.select "email" (JStr email) (table w) = Some r ->
  result (login_try ext email password w) =
  match bcrypt_compareSync ext password (Row.password r) with
  | Return true =>
      match jwt_signTokens ext (JNum (Row.id r)) (redis w) with
      | (Return (accessToken, refreshToken), _) =>
          Return (VPair (JNum 200)
                    (response (JNum 200) message.SUCCESS
                       (Some (loginResponse accessToken refreshToken))))
      | (Throw err, _) => Throw err
      end
  | Return false => Return invalid_user_info
  | Throw err => Throw err
  end.
Proof.
  intros Hdb Hsel. unfold login_try.
  rewrite bind_run, (findOne_ok 0 _ _ _ w Hdb), Hsel.
  set (w0 := set_heap _ _).
  assert (Hh : heap w0 !! List.length (heap w) = Some (User.load ["id"; "password"] r))
    by apply lookup_alloc.
  rewrite bind_run, (getDataValue_run _ _ _ "password" Hh eq_refl), load_password.
  rewrite bind_run. cbn [emit].
  rewrite bind_run. unfold lift at 1.
  destruct (bcrypt_compareSync ext password (Row.password r)) as [b|err] eqn:Hc;
    [| reflexivity].
  rewrite bind_run. cbn [emit]. rewrite bind_run. unfold lift at 1.
  destruct b; cbn [negb]; [| reflexivity].
  rewrite bind_run.
  match goal with |- context [getDataValue _ "id" ?w2] =>
    assert (Hh2 : heap w2 !! List.length (heap w) = Some (User.load ["id"; "password"] r))
      by apply lookup_alloc;
    rewrite (getDataValue_run w2 _ _ "id" Hh2 eq_refl), load_id; set (w3 := w2)
  end.
  rewrite bind_run. unfold signTokens, on_redis. change (redis w3) with (redis w).
  destruct (jwt_signTokens ext (JNum (Row.id r)) (redis w)) as [[[a t]|err] c]; reflexivity.
Qed.

(** C6. [login(email, password)] answers 400 with INVALID_USER_INFO when no
    user has that email or when the password does not match the hash stored
    for the user found, and 200 with the access and the refresh token signed
    for that user when the password matches; the database answering the
    lookup and, in the last case, the token utility handing back its pair. *)
Theorem login_credentials ext email password w :
  db_ok 1 w ->
  (~ taken "email" (JStr email) (table w) ->
   result (login ext email password w) =
   Return (VPair (JNum 400) (errResponse (JNum 400) message.INVALID_USER_INFO)))
  /\ (forall r,
        User.select "email" (JStr email) (table w) = Some r ->
        bcrypt_compareSync ext password (Row.password r) = Return false ->
        result (login ext email password w) =
        Return (VPair (JNum 400) (errResponse (JNum 400) message.INVALID_USER_INFO)))
  /\ (forall r accessToken refreshToken cache,
        User.select "email" (JStr email) (table w) = Some r ->
        bcrypt_compareSync ext password (Row.password r) = Return true ->
        jwt_signTokens ext (JNum (Row.id r)) (redis w)
          = (Return (accessToken, refreshToken), cache) ->
        result (login ext email password w) =
        Return (VPair (JNum 200)
                  (response (JNum 200) message.SUCCESS
                     (Some (loginResponse accessToken refreshToken))))).
Proof.
  intros Hdb. unfold login. split; [| split].
  - intros Hfresh. apply select_None in Hfresh.
    rewrite try_catch_result, (login_try_unknown _ _ _ _ Hdb Hfresh). reflexivity.
  - intros r Hsel Hcmp.
    rewrite try_catch_result, (login_try_known _ _ _ _ _ Hdb Hsel), Hcmp. reflexivity.
  - intros r a t c Hsel Hcmp Hsign.
    rewrite try_catch_result, (login_try_known _ _ _ _ _ Hdb Hsel), Hcmp, Hsign.
    reflexivity.
Qed.

Lemma login_credentials_witness :
  result (login Sample.ext "bob@pay.here" "secret" Sample.w1) = Return invalid_user_info
  /\ result (login Sample.ext "alice@pay.here" "guess" Sample.w1) = Return invalid_user_info
  /\ result (login Sample.ext "alice@pay.here" "secret" Sample.w1) =
     Return (VPair (JNum 200)
               (response (JNum 200) message.SUCCESS
                  (Some (loginResponse (JStr "access:1") (JStr "refresh:1"))))).
Proof.
  assert (Hdb : db_ok 1 Sample.w1) by constructor.
  split; [| split].
  - apply (proj1 (login_credentials Sample.ext "bob@pay.here" "secret" Sample.w1 Hdb)).
    apply select_None. reflexivity.
  - apply (proj1 (proj2 (login_credentials Sample.ext "alice@pay.here" "guess" Sample.w1 Hdb))
             Sample.alice); reflexivity.
  - apply (proj2 (proj2 (login_credentials Sample.ext "alice@pay.here" "secret" Sample.w1 Hdb))
             Sample.alice _ _ (<["1" := JStr "refresh:1"]> (redis Sample.w1))); reflexivity.
Defined.

(** ** signUp *)

Lemma create_ok n email password nickname w :
  db_ok (S n) w ->
  User.create email password nickname w =
  (Return (List.length (heap w)),
   set_heap (heap w ++ [mkInstance (list_to_map [("id", JNum (autoIncrement w));
                                                  ("email", email);
                                                  ("password", password);
                                                  ("nickname", nickname)]) []])
     (set_autoIncrement (autoIncrement w + 1)
        (set_table (table w ++ [Row.mk (autoIncrement w) email password nickname JNull false])
           (tick w)))).
Proof.
  intros H. unfold User.create. rewrite bind_run, (db_query_ok n w H). reflexivity.
Qed.

Lemma signUp_try_email_taken ext email password nickname w r :
  db_ok 1 w ->
  User.select "email" (JStr email) (table w) = Some r ->
  signUp_try ext email password nickname w =
  (Return (VPair (JNum 400) (errResponse (JNum 400) message.ALREADY_EXIST_EMAIL)),
   set_heap (heap w ++ [User.load attributes r]) (tick w)).
Proof.
  intros Hdb Hsel. unfold signUp_try.
  rewrite bind_run, (findOne_ok 0 _ _ _ w Hdb), Hsel. reflexivity.
Qed.

Lemma signUp_try_nickname_taken ext email password nickname w r :
  db_ok 2 w ->
  User.select "email" (JStr email) (table w) = None ->
  User.select "nickname" (JStr nickname) (table w) = Some r ->
  signUp_try ext email password nickname w =
  (Return (VPair (JNum 400) (errResponse (JNum 400) message.ALREADY_EXIST_NICKNAME)),
   set_heap (heap w ++ [User.load attributes r]) (tick (tick w))).
Proof.
  intros Hdb He Hn. unfold signUp_try.
  rewrite bind_run, (findOne_ok 1 _ _ _ w Hdb), He.
  rewrite bind_run, (findOne_ok 0 _ _ _ (tick w) (db_ok_tick 1 w Hdb)).
  change (table (tick w)) with (table w). rewrite Hn. reflexivity.
Qed.

(** With both values free, the row is created and the tokens are those the
    token utility signs for [newUser.user_id], which no instance has. *)
Lemma signUp_try_fresh ext email password nickname w hash :
  db_ok 3 w ->
  User.select "email" (JStr email) (table w) = None ->
  User.select "nickname" (JStr nickname) (table w) = None ->
  bcrypt_hashSync ext password 10 = Return hash ->
  result (signUp_try ext email password nickname w) =
    match jwt_signTokens ext JUndefined (redis w) with
    | (Return (accessToken, refreshToken), _) =>
        Return (VPair (JNum 200)
                  (response (JNum 200) message.SUCCESS
                     (Some (signUpResponse accessToken refreshToken))))
    | (Throw err, _) => Throw err
    end
  /\ table (after (signUp_try ext email password nickname w)) =
     (table w ++ [Row.mk (autoIncrement w) (JStr email) hash (JStr nickname) JNull false])%list.
Proof.
  intros Hdb He Hn Hh.
  assert (E : exists w',
    table w' =
      (table w ++ [Row.mk (autoIncrement w) (JStr email) hash (JStr nickname) JNull false])%list
    /\ signUp_try ext email password nickname w =
       (match jwt_signTokens ext JUndefined (redis w) with
        | (Return (accessToken, refreshToken), _) =>
            Return (VPair (JNum 200)
                      (response (JNum 200) message.SUCCESS
                         (Some (signUpResponse accessToken refreshToken))))
        | (Throw err, _) => Throw err
        end, w')).
  { unfold signUp_try.
    pose proof (db_ok_tick 2 w Hdb) as Hdb1.
    pose proof (db_ok_tick 1 _ Hdb1) as Hdb2.
    rewrite bind_run, (findOne_ok 2 _ _ _ w Hdb), He.
    rewrite bind_run, (findOne_ok 1 _ _ _ (tick w) Hdb1).
    change (table (tick w)) with (table w). rewrite Hn.
    rewrite bind_run. unfold lift at 1. rewrite Hh.
    rewrite bind_run, (create_ok 0 _ _ _ _ Hdb2).
    rewrite bind_run.
    match goal with |- context [get_prop ?l "user_id" ?w2] =>
      assert (Hl : exists o, heap w2 !! l = Some o /\ read_prop "user_id" o = JUndefined)
        by (eexists; split; [apply lookup_alloc | reflexivity]);
      set (w3 := w2) in *
    end.
    destruct Hl as (o & Hl & Hu).
    rewrite (get_prop_run _ _ _ _ Hl), Hu.
    rewrite bind_run. unfold signTokens, on_redis. change (redis w3) with (redis w).
    destruct (jwt_signTokens ext JUndefined (redis w)) as [[[a t]|err] c];
      eexists; (split; [| reflexivity]); reflexivity. }
  destruct E as (w' & Ht & E). rewrite E. split; [reflexivity | exact Ht].
Qed.

Lemma try_catch_returning {A : Type} (m : M A) (h : string -> M A) w a :
  result (m w) = Return a -> try_catch m h w = m w.
Proof.
  unfold try_catch, result. destruct (m w) as [[a'|err] w1]; simpl; congruence.
Qed.

(** C7. [signUp] answers 400 ALREADY_EXIST_EMAIL when a user has the email,
    400 ALREADY_EXIST_NICKNAME when no user has the email and one has the
    nickname, and with both free it stores a new user under the hash of the
    password and answers 200 with the tokens the token utility issued; the
    database answering its calls, bcrypt handing back the hash and the token
    utility handing back a pair. *)
Theorem signUp_outcomes ext email password nickname w :
  db_ok 3 w ->
  (taken "email" (JStr email) (table w) ->
   result (signUp ext email password nickname w) =
   Return (VPair (JNum 400) (errResponse (JNum 400) message.ALREADY_EXIST_EMAIL)))
  /\ (~ taken "email" (JStr email) (table w) ->
      taken "nickname" (JStr nickname) (table w) ->
      result (signUp ext email password nickname w) =
      Return (VPair (JNum 400) (errResponse (JNum 400) message.ALREADY_EXIST_NICKNAME)))
  /\ (~ taken "email" (JStr email) (table w) ->
      ~ taken "nickname" (JStr nickname) (table w) ->
      forall hash,
        bcrypt_hashSync ext password 10 = Return hash ->
        (forall userId, exists tokens cache,
            jwt_signTokens ext userId (redis w) = (Return tokens, cache)) ->
        exists userId accessToken refreshToken cache,
          jwt_signTokens ext userId (redis w) = (Return (accessToken, refreshToken), cache)
          /\ result (signUp ext email password nickname w) =
             Return (VPair (JNum 200)
                       (response (JNum 200) message.SUCCESS
                          (Some (signUpResponse accessToken refreshToken))))
          /\ table (after (signUp ext email password nickname w)) =
             (table w ++
              [Row.mk (autoIncrement w) (JStr email) hash (JStr nickname) JNull false])%list).
Proof.
  intros Hdb. unfold signUp. split; [| split].
  - intros [r Hr]%taken_select.
    assert (Hdb1 : db_ok 1 w) by (apply (db_ok_weaken 3); [lia | exact Hdb]).
    rewrite try_catch_result, (signUp_try_email_taken _ _ _ _ _ _ Hdb1 Hr). reflexivity.
  - intros He%select_None [r Hr]%taken_select.
    assert (Hdb2 : db_ok 2 w) by (apply (db_ok_weaken 3); [lia | exact Hdb]).
    rewrite try_catch_result, (signUp_try_nickname_taken _ _ _ _ _ _ Hdb2 He Hr). reflexivity.
  - intros He%select_None Hn%select_None hash Hh Hsign.
    destruct (Hsign JUndefined) as ([a t] & c & Hs).
    destruct (signUp_try_fresh ext email password nickname w hash Hdb He Hn Hh) as [Hr Ht].
    rewrite Hs in Hr. exists JUndefined, a, t, c.
    rewrite (try_catch_returning _ _ _ _ Hr). auto.
Qed.

Lemma sample_db_ok n : db_ok n Sample.w1.
Proof. unfold db_ok. simpl. rewrite take_nil. constructor. Qed.

Lemma sample_alice_taken_email : taken "email" (JStr "alice@pay.here") (table Sample.w1).
Proof. exists Sample.alice. split; [apply list_elem_of_here | split; reflexivity]. Qed.

Lemma sample_alice_taken_nickname : taken "nickname" (JStr "alice") (table Sample.w1).
Proof. exists Sample.alice. split; [apply list_elem_of_here | split; reflexivity]. Qed.

Lemma sample_bob_free_email : ~ taken "email" (JStr "bob@pay.here") (table Sample.w1).
Proof. apply select_None. reflexivity. Qed.

Lemma sample_bob_free_nickname : ~ taken "nickname" (JStr "bob") (table Sample.w1).
Proof. apply select_None. reflexivity. Qed.

Lemma sample_sign_total (cache : gmap string jsval) userId :
  exists tokens cache', jwt_signTokens Sample.ext userId cache = (Return tokens, cache').
Proof. eexists _, _. reflexivity. Qed.

Lemma signUp_outcomes_witness :
  result (signUp Sample.ext "alice@pay.here" "pw" "ally" Sample.w1) =
    Return (VPair (JNum 400) (errResponse (JNum 400) message.ALREADY_EXIST_EMAIL))
  /\ result (signUp Sample.ext "bob@pay.here" "pw" "alice" Sample.w1) =
    Return (VPair (JNum 400) (errResponse (JNum 400) message.ALREADY_EXIST_NICKNAME))
  /\ exists userId accessToken refreshToken cache,
       jwt_signTokens Sample.ext userId (redis Sample.w1)
         = (Return (accessToken, refreshToken), cache)
       /\ result (signUp Sample.ext "bob@pay.here" "pw" "bob" Sample.w1) =
          Return (VPair (JNum 200)
                    (response (JNum 200) message.SUCCESS
                       (Some (signUpResponse accessToken refreshToken))))
       /\ table (after (signUp Sample.ext "bob@pay.here" "pw" "bob" Sample.w1)) =
          [Sample.alice;
           Row.mk 2 (JStr "bob@pay.here") (JStr "$2b$pw") (JStr "bob") JNull false].
Proof.
  split; [| split].
  - apply (proj1 (signUp_outcomes Sample.ext "alice@pay.here" "pw" "ally" Sample.w1
                    (sample_db_ok 3))).
    exact sample_alice_taken_email.
  - apply (proj1 (proj2 (signUp_outcomes Sample.ext "bob@pay.here" "pw" "alice" Sample.w1
                           (sample_db_ok 3)))).
    + exact sample_bob_free_email.
    + exact sample_alice_taken_nickname.
  - apply (proj2 (proj2 (signUp_outcomes Sample.ext "bob@pay.here" "pw" "bob" Sample.w1
                           (sample_db_ok 3)))
             sample_bob_free_email sample_bob_free_nickname (JStr "$2b$pw") eq_refl
             (sample_sign_total (redis Sample.w1))).
Defined.

(** C4, as the code has it: with email and nickname free, [signUp] stores
    the new user under the next key of the table, and the tokens of its 200
    response are the pair the token utility signs for [undefined], the
    value of [newUser.user_id], not for that key. *)
Theorem signUp_signs_for_undefined ext email password nickname w hash
    accessToken refreshToken cache :
  db_ok 3 w ->
  ~ taken "email" (JStr email) (table w) ->
  ~ taken "nickname" (JStr nickname) (table w) ->
  bcrypt_hashSync ext password 10 = Return hash ->
  jwt_signTokens ext JUndefined (redis w) = (Return (accessToken, refreshToken), cache) ->
  result (signUp ext email password nickname w) =
    Return (VPair (JNum 200)
              (response (JNum 200) message.SUCCESS
                 (Some (signUpResponse accessToken refreshToken))))
  /\ table (after (signUp ext email password nickname w)) =
     (table w ++
      [Row.mk (autoIncrement w) (JStr email) hash (JStr nickname) JNull false])%list.
Proof.
  intros Hdb He%select_None Hn%select_None Hh Hs.
  destruct (signUp_try_fresh ext email password nickname w hash Hdb He Hn Hh) as [Hr Ht].
  rewrite Hs in Hr. unfold signUp. rewrite (try_catch_returning _ _ _ _ Hr). auto.
Qed.

Lemma signUp_signs_for_undefined_witness :
  result (signUp Sample.ext "bob@pay.here" "pw" "bob" Sample.empty) =
    Return (VPair (JNum 200)
              (response (JNum 200) message.SUCCESS
                 (Some (signUpResponse (JStr "access:undefined")
                                       (JStr "refresh:undefined")))))
  /\ table (after (signUp Sample.ext "bob@pay.here" "pw" "bob" Sample.empty)) =
     [Row.mk 1 (JStr "bob@pay.here") (JStr "$2b$pw") (JStr "bob") JNull false].
Proof.
  apply (signUp_signs_for_undefined Sample.ext "bob@pay.here" "pw" "bob" Sample.empty
           (JStr "$2b$pw") (JStr "access:undefined") (JStr "refresh:undefined")
           (<["undefined" := JStr "refresh:undefined"]> ∅)).
  - unfold db_ok. simpl. constructor.
  - apply select_None. reflexivity.
  - apply select_None. reflexivity.
  - reflexivity.
  - reflexivity.
Defined.

(** ** editUser *)

Lemma set_heap_same w user o :
  heap w !! user = Some o -> set_heap (<[user := o]> (heap w)) w = w.
Proof. intros H. rewrite (list_insert_id _ _ _ H). destruct w; reflexivity. Qed.

Lemma editUser_step_run w user o key v updatedData :
  heap w !! user = Some o ->
  editUser_step user key v updatedData w =
  if skipped key v o then (Return updatedData, w)
  else (Return (updatedData ++ [(key, v)])%list,
        set_heap (<[user := assign key v o]> (heap w)) w).
Proof.
  intros H. unfold editUser_step, skipped.
  rewrite bind_run, (get_prop_run _ _ _ _ H).
  destruct (strict_eq (read_prop key o) v || negb (truthy v)); [reflexivity |].
  rewrite bind_run, (set_prop_run _ _ _ _ _ H). reflexivity.
Qed.

(** The loop only ever touches the one instance, through [edit_loop]. *)
Lemma for_in_edit entries : forall w user o updatedData,
  heap w !! user = Some o ->
  for_in entries (editUser_step user) updatedData w =
  (Return (snd (edit_loop entries o updatedData)),
   set_heap (<[user := fst (edit_loop entries o updatedData)]> (heap w)) w).
Proof.
  induction entries as [|[key v] rest IH]; intros w user o ud H;
    cbn [for_in edit_loop].
  - cbn [fst snd]. rewrite (set_heap_same _ _ _ H). reflexivity.
  - rewrite bind_run, (editUser_step_run _ _ _ _ _ _ H).
    destruct (skipped key v o); [apply IH, H |].
    rewrite (IH _ user (assign key v o)).
    + cbn [heap set_heap]. rewrite list_insert_insert_eq. reflexivity.
    + cbn [heap set_heap]. apply list_lookup_insert_eq. eapply lookup_lt_Some, H.
Qed.

Lemma editUser_run w user o newNickname newMbti newPassword :
  heap w !! user = Some o ->
  editUser user newNickname newMbti newPassword w =
  let entries := dataToEdit (default_null newNickname) (default_null newMbti)
                            (default_null newPassword) in
  let w' := set_heap (<[user := fst (edit_loop entries o [])]> (heap w)) w in
  if Nat.eqb (List.length (snd (edit_loop entries o []))) 0
  then (Return (VBody (errResponse statusCode.BAD_REQUEST message.BAD_REQUEST)), w')
  else try_catch (editUser_try user) db_error_catch w'.
Proof.
  intros H. unfold editUser. cbv zeta.
  rewrite bind_run, (for_in_edit _ _ _ _ _ H).
  destruct (Nat.eqb _ 0); reflexivity.
Qed.

Lemma save_ok w user o :
  heap w !! user = Some o ->
  db_ok 1 w ->
  User.save user w =
  match changed o with
  | [] => (Return tt, w)
  | _ :: _ =>
      (Return tt,
       set_heap (<[user := mkInstance (props o) []]> (heap w))
         (set_table (User.write_back o <$> table w) (tick w)))
  end.
Proof.
  intros H Hdb. unfold User.save.
  rewrite bind_run, (deref_run _ _ _ H).
  destruct (changed o); [reflexivity |].
  rewrite bind_run, (db_query_ok 0 _ Hdb). reflexivity.
Qed.

Lemma write_back_unchanged o (t : list Row.t) :
  changed o = [] -> User.write_back o <$> t = t.
Proof.
  intros H. rewrite <- (list_fmap_id t) at 2. apply list_fmap_ext.
  intros i r _. unfold User.write_back. rewrite H. destruct (User.is_row_of o r); reflexivity.
Qed.

Lemma truthy_not_undefined v : truthy v = true -> strict_eq JUndefined v = false.
Proof. destruct v; simpl; try discriminate; reflexivity. Qed.

Lemma skipped_null key o : skipped key JNull o = true.
Proof. unfold skipped. apply orb_true_r. Qed.

(** A first argument that is set, on an instance without a property
    [newNickname]: the loop stores it under that key and nowhere else, and
    the instance is saved. *)
Lemma editUser_nickname_run w user o v :
  heap w !! user = Some o ->
  props o !! "newNickname" = None ->
  truthy v = true ->
  db_ok 1 w ->
  exists W,
    editUser user v JUndefined JUndefined w =
      (Return (VBody (response (JNum 200) message.SUCCESS None)), W)
    /\ (exists o', heap W !! user = Some o'
                   /\ props o' = <["newNickname" := v]> (props o))
    /\ (changed o = [] -> table W = table w).
Proof.
  intros H Hnew Hv Hdb. rewrite (editUser_run _ _ _ _ _ _ H).
  assert (Hd : default_null v = v) by (destruct v; try reflexivity; discriminate).
  assert (Hs : skipped "newNickname" v o = false).
  { unfold skipped, read_prop. rewrite Hnew. simpl.
    rewrite (truthy_not_undefined _ Hv), Hv. reflexivity. }
  cbv zeta. unfold dataToEdit. cbn [edit_loop default_null].
  rewrite Hd, Hs, !skipped_null. simpl fst. simpl snd.
  cbn [List.length app Nat.eqb].
  set (w' := set_heap _ w).
  assert (H' : heap w' !! user = Some (assign "newNickname" v o)).
  { simpl. apply list_lookup_insert_eq. eapply lookup_lt_Some, H. }
  unfold try_catch, editUser_try.
  rewrite bind_run, (save_ok _ _ _ H' Hdb). cbn [assign changed is_attribute existsb].
  change (existsb (String.eqb "newNickname") attributes) with false. cbv iota.
  destruct (changed o) as [|c cs] eqn:Hc.
  - exists w'. split; [reflexivity | split].
    + exists (assign "newNickname" v o). split; [exact H' | reflexivity].
    + intros _. reflexivity.
  - eexists. split; [reflexivity | split].
    + exists (mkInstance (<["newNickname" := v]> (props o)) []). split; [| reflexivity].
      cbn [heap set_heap set_table w']. rewrite list_insert_insert_eq.
      apply list_lookup_insert_eq. eapply lookup_lt_Some, H.
    + discriminate.
Qed.

(** C1, as the code has it: handed the nickname the user already has (and
    nothing else), [editUser] does not answer 400 but saves the instance
    and answers 200, because the loop compares the argument with the
    property [newNickname] of the instance, which no instance has, instead
    of with its [nickname]. *)
Theorem editUser_accepts_current_nickname w user o nickname :
  heap w !! user = Some o ->
  props o !! "newNickname" = None ->
  read_prop "nickname" o = nickname ->
  truthy nickname = true ->
  db_ok 1 w ->
  result (editUser user nickname JUndefined JUndefined w) =
  Return (VBody (response (JNum 200) message.SUCCESS None)).
Proof.
  intros H Hnew _ Hv Hdb.
  destruct (editUser_nickname_run _ _ _ _ H Hnew Hv Hdb) as (W & E & _). rewrite E.
  reflexivity.
Qed.

Lemma editUser_accepts_current_nickname_witness :
  result (editUser 0%nat (JStr "alice") JUndefined JUndefined Sample.w1) =
  Return (VBody (response (JNum 200) message.SUCCESS None)).
Proof.
  apply (editUser_accepts_current_nickname Sample.w1 0%nat
           (User.load attributes Sample.alice) (JStr "alice")).
  - reflexivity.
  - reflexivity.
  - reflexivity.
  - reflexivity.
  - apply sample_db_ok.
Defined.

(** C5, as the code has it: handed one new nickname, different from the
    current one, [editUser] answers 200, yet the [nickname] of the instance
    is what it was, the new value sits under the property [newNickname],
    and the table is unchanged. *)
Theorem editUser_new_nickname_not_applied w user o v :
  heap w !! user = Some o ->
  props o !! "newNickname" = None ->
  changed o = [] ->
  truthy v = true ->
  read_prop "nickname" o <> v ->
  db_ok 1 w ->
  result (editUser user v JUndefined JUndefined w) =
    Return (VBody (response (JNum 200) message.SUCCESS None))
  /\ (exists o', heap (after (editUser user v JUndefined JUndefined w)) !! user = Some o'
                 /\ read_prop "nickname" o' = read_prop "nickname" o
                 /\ read_prop "newNickname" o' = v)
  /\ table (after (editUser user v JUndefined JUndefined w)) = table w.
Proof.
  intros H Hnew Hch Hv _ Hdb.
  destruct (editUser_nickname_run _ _ _ _ H Hnew Hv Hdb) as (W & E & (o' & Ho' & Hp) & Ht).
  rewrite E. cbn [result after fst snd]. split; [reflexivity | split].
  - exists o'. split; [exact Ho' |]. unfold read_prop. rewrite Hp. split.
    + rewrite lookup_insert_ne by discriminate. reflexivity.
    + rewrite lookup_insert_eq. reflexivity.
  - apply Ht, Hch.
Qed.

Lemma editUser_new_nickname_not_applied_witness :
  result (editUser 0%nat (JStr "ally") JUndefined JUndefined Sample.w1) =
    Return (VBody (response (JNum 200) message.SUCCESS None))
  /\ (exists o', heap (after (editUser 0%nat (JStr "ally") JUndefined JUndefined Sample.w1))
                   !! 0%nat = Some o'
                 /\ read_prop "nickname" o' = JStr "alice"
                 /\ read_prop "newNickname" o' = JStr "ally")
  /\ table (after (editUser 0%nat (JStr "ally") JUndefined JUndefined Sample.w1)) =
     [Sample.alice].
Proof.
  apply (editUser_new_nickname_not_applied Sample.w1 0%nat
           (User.load attributes Sample.alice) (JStr "ally")).
  - reflexivity.
  - reflexivity.
  - reflexivity.
  - reflexivity.
  - discriminate.
  - apply sample_db_ok.
Defined.

(** ** logout and resignToken *)

Lemma logout_result userId w :
  result (logout userId w) =
  Return (VPair (JNum 200) (response (JNum 200) message.SUCCESS None)).
Proof.
  unfold logout, redisClient_del. rewrite bind_run.
  destruct (redis_faults w) as [|[] f]; reflexivity.
Qed.

Lemma resignToken_run ext accessToken refreshToken w decision newAccessToken cache :
  jwt_resignAccessToken ext accessToken refreshToken (redis w)
    = (Return (decision, newAccessToken), cache) ->
  result (resignToken ext accessToken refreshToken w) =
  if strict_eq decision (resignTokenStatus.RESIGN_ACCESS_TOKEN (status ext)) then
    Return (VPair (JNum 200)
              (response (statusCode_SUCCESS ext) message.SUCCESS
                 (Some (resignTokenResponse newAccessToken refreshToken))))
  else if strict_eq decision (resignTokenStatus.UNAUTHORIZED (status ext)) then
    Return (VPair (JNum 401) (errResponse (JNum 401) message.FORBIDDEN))
  else if strict_eq decision (resignTokenStatus.UNNECESSARY (status ext)) then
    Return (VPair (JNum 400) (errResponse (JNum 400) message.REFRESH_TOKEN_UNNECESSARY))
  else Return VUndefined.
Proof.
  intros H. unfold resignToken, resignAccessToken, on_redis.
  rewrite bind_run, H.
  repeat match goal with |- context [strict_eq ?a ?b] => destruct (strict_eq a b) end;
    reflexivity.
Qed.

Lemma strict_eq_refl v : strict_eq v v = true.
Proof. unfold strict_eq. apply bool_decide_eq_true. reflexivity. Qed.

Lemma strict_eq_ne a b : a <> b -> strict_eq a b = false.
Proof. intros H. unfold strict_eq. apply bool_decide_eq_false. exact H. Qed.

(** C8. [resignToken] is a function of the reissue decision: RESIGN_ACCESS_TOKEN
    gives the status 200 and a body with the new access token and the
    refresh token it was called with, UNAUTHORIZED gives 401, UNNECESSARY
    gives 400, and two calls with the same decision, the same new access
    token and the same refresh token hand back the same; the three values
    of the decision being distinct. *)
Theorem resignToken_by_decision ext accessToken refreshToken w decision newAccessToken cache :
  NoDup [resignTokenStatus.RESIGN_ACCESS_TOKEN (status ext);
         resignTokenStatus.UNAUTHORIZED (status ext);
         resignTokenStatus.UNNECESSARY (status ext)] ->
  jwt_resignAccessToken ext accessToken refreshToken (redis w)
    = (Return (decision, newAccessToken), cache) ->
  (decision = resignTokenStatus.RESIGN_ACCESS_TOKEN (status ext) ->
   result (resignToken ext accessToken refreshToken w) =
   Return (VPair (JNum 200)
             (response (statusCode_SUCCESS ext) message.SUCCESS
                (Some (resignTokenResponse newAccessToken refreshToken)))))
  /\ (decision = resignTokenStatus.UNAUTHORIZED (status ext) ->
      result (resignToken ext accessToken refreshToken w) =
      Return (VPair (JNum 401) (errResponse (JNum 401) message.FORBIDDEN)))
  /\ (decision = resignTokenStatus.UNNECESSARY (status ext) ->
      result (resignToken ext accessToken refreshToken w) =
      Return (VPair (JNum 400)
                (errResponse (JNum 400) message.REFRESH_TOKEN_UNNECESSARY)))
  /\ (forall accessToken' w' cache',
        jwt_resignAccessToken ext accessToken' refreshToken (redis w')
          = (Return (decision, newAccessToken), cache') ->
        result (resignToken ext accessToken' refreshToken w') =
        result (resignToken ext accessToken refreshToken w)).
Proof.
  intros Hnd H. rewrite (resignToken_run _ _ _ _ _ _ _ H).
  apply NoDup_cons in Hnd as [Hn1 Hnd]. apply NoDup_cons in Hnd as [Hn2 _].
  split; [| split; [| split]].
  - intros ->. rewrite strict_eq_refl. reflexivity.
  - intros ->.
    rewrite strict_eq_ne by (intros E; apply Hn1; rewrite <- E; repeat constructor).
    rewrite strict_eq_refl. reflexivity.
  - intros ->.
    rewrite strict_eq_ne by (intros E; apply Hn1; rewrite <- E; repeat constructor).
    rewrite strict_eq_ne by (intros E; apply Hn2; rewrite <- E; repeat constructor).
    rewrite strict_eq_refl. reflexivity.
  - intros a' w' c' H'. rewrite (resignToken_run _ _ _ _ _ _ _ H'). reflexivity.
Qed.

Lemma sample_status_distinct :
  NoDup [resignTokenStatus.RESIGN_ACCESS_TOKEN (status Sample.ext);
         resignTokenStatus.UNAUTHORIZED (status Sample.ext);
         resignTokenStatus.UNNECESSARY (status Sample.ext)].
Proof. apply (bool_decide_unpack _). vm_compute. exact I. Qed.

Lemma resignToken_by_decision_witness :
  result (resignToken Sample.ext (JStr "expired") (JStr "refresh:1") Sample.w1) =
    Return (VPair (JNum 200)
              (response JUndefined message.SUCCESS
                 (Some (resignTokenResponse (JStr "access:renewed") (JStr "refresh:1")))))
  /\ result (resignToken Sample.ext (JStr "forged") (JStr "refresh:1") Sample.w1) =
     Return (VPair (JNum 401) (errResponse (JNum 401) message.FORBIDDEN))
  /\ result (resignToken Sample.ext (JStr "valid") (JStr "refresh:1") Sample.w1) =
     Return (VPair (JNum 400) (errResponse (JNum 400) message.REFRESH_TOKEN_UNNECESSARY))
  /\ result (resignToken Sample.ext (JStr "expired") (JStr "refresh:1") Sample.empty) =
     result (resignToken Sample.ext (JStr "expired") (JStr "refresh:1") Sample.w1).
Proof.
  split; [| split; [| split]].
  - apply (proj1 (resignToken_by_decision Sample.ext (JStr "expired") (JStr "refresh:1")
                    Sample.w1 _ _ (redis Sample.w1) sample_status_distinct eq_refl)).
    reflexivity.
  - apply (proj1 (proj2 (resignToken_by_decision Sample.ext (JStr "forged")
                           (JStr "refresh:1") Sample.w1 _ _ (redis Sample.w1)
                           sample_status_distinct eq_refl))).
    reflexivity.
  - apply (proj1 (proj2 (proj2 (resignToken_by_decision Sample.ext (JStr "valid")
                                  (JStr "refresh:1") Sample.w1 _ _ (redis Sample.w1)
                                  sample_status_distinct eq_refl)))).
    reflexivity.
  - apply (proj2 (proj2 (proj2 (resignToken_by_decision Sample.ext (JStr "expired")
                                  (JStr "refresh:1") Sample.w1 _ _ (redis Sample.w1)
                                  sample_status_distinct eq_refl)))
             (JStr "expired") Sample.empty (redis Sample.empty)).
    reflexivity.
Defined.

(** C9. [logout(userId)] answers 200 for every [userId] in every world, so
    also when the cache holds no entry for that id and at the second of two
    calls in a row. *)
Theorem logout_always_200 userId w :
  result (logout userId w) =
    Return (VPair (JNum 200) (response (JNum 200) message.SUCCESS None))
  /\ result (logout userId (after (logout userId w))) =
    Return (VPair (JNum 200) (response (JNum 200) message.SUCCESS None)).
Proof. split; apply logout_result. Qed.

(** C10. When the reissue decision is none of the three values of
    [resignTokenStatus], [resignToken] hands back [undefined]: no branch of
    the chain takes it and there is no final [else]. *)
Theorem resignToken_unrecognized ext accessToken refreshToken w decision newAccessToken cache :
  jwt_resignAccessToken ext accessToken refreshToken (redis w)
    = (Return (decision, newAccessToken), cache) ->
  decision <> resignTokenStatus.RESIGN_ACCESS_TOKEN (status ext) ->
  decision <> resignTokenStatus.UNAUTHORIZED (status ext) ->
  decision <> resignTokenStatus.UNNECESSARY (status ext) ->
  result (resignToken ext accessToken refreshToken w) = Return VUndefined.
Proof.
  intros H H1 H2 H3. rewrite (resignToken_run _ _ _ _ _ _ _ H).
  rewrite !strict_eq_ne by assumption. reflexivity.
Qed.

Lemma resignToken_unrecognized_witness :
  result (resignToken Sample.ext (JStr "odd") (JStr "refresh:1") Sample.w1) =
  Return VUndefined.
Proof.
  apply (resignToken_unrecognized Sample.ext (JStr "odd") (JStr "refresh:1") Sample.w1
           (JStr "EXPIRED_REFRESH_TOKEN") JUndefined (redis Sample.w1)).
  - reflexivity.
  - discriminate.
  - discriminate.
  - discriminate.
Defined.

(** ** What the operations hand back *)

Lemma always_pair (m : M value) w :
  always (fun v => is_pair v = true) m -> hands_back_pair (m w).
Proof.
  intros H. destruct (H w) as (v & w' & E & Hv). destruct v; try discriminate.
  exists code, b. unfold result. rewrite E. reflexivity.
Qed.

Lemma always_body (m : M value) w :
  always (fun v => is_bare_body v = true) m -> hands_back_body (m w).
Proof.
  intros H. destruct (H w) as (v & w' & E & Hv). destruct v; try discriminate.
  exists b. unfold result. rewrite E. reflexivity.
Qed.

Lemma guarded_save_body user :
  always (fun v => is_bare_body v = true) (try_catch (editUser_try user) db_error_catch).
Proof.
  apply always_try_catch; [| apply db_error_catch_body].
  unfold editUser_try. shape.
Qed.

Lemma editUser_body w user o newNickname newMbti newPassword :
  heap w !! user = Some o ->
  hands_back_body (editUser user newNickname newMbti newPassword w).
Proof.
  intros H. rewrite (editUser_run _ _ _ _ _ _ H). cbv zeta.
  destruct (Nat.eqb _ 0).
  - eexists. reflexivity.
  - apply always_body, guarded_save_body.
Qed.

Lemma hands_back_pair_never_throws run : hands_back_pair run -> never_throws run.
Proof. intros (c & b & E). eexists. exact E. Qed.

Lemma hands_back_body_never_throws run : hands_back_body run -> never_throws run.
Proof. intros (b & E). eexists. exact E. Qed.

(** Against C2 as stated: [getUser] hands the caller the body alone. *)
Lemma getUser_hands_back_no_pair :
  result (getUser (JNum 1) Sample.w1) =
    Return (VBody (response (JNum 200) message.SUCCESS (Some (userPayload 1%nat))))
  /\ ~ hands_back_pair (getUser (JNum 1) Sample.w1).
Proof.
  split; [reflexivity |].
  intros (code & b & E). vm_compute in E. discriminate.
Qed.

(** C2, amended. [login], [signUp] and [logout] hand back the pair of a
    status code and a body in every world; [resignToken] hands back such a
    pair when the reissue decision is one of the three values of
    [resignTokenStatus]; [getUser], [editUser] (given a user object) and
    [deleteUser] hand back the body alone, without the status code beside
    it. *)
Theorem operations_result_shape ext :
  (forall email password w, hands_back_pair (login ext email password w))
  /\ (forall email password nickname w,
        hands_back_pair (signUp ext email password nickname w))
  /\ (forall userId w, hands_back_pair (logout userId w))
  /\ (forall accessToken refreshToken w decision newAccessToken cache,
        jwt_resignAccessToken ext accessToken refreshToken (redis w)
          = (Return (decision, newAccessToken), cache) ->
        decision ∈ [resignTokenStatus.RESIGN_ACCESS_TOKEN (status ext);
                    resignTokenStatus.UNAUTHORIZED (status ext);
                    resignTokenStatus.UNNECESSARY (status ext)] ->
        hands_back_pair (resignToken ext accessToken refreshToken w))
  /\ (forall userId w, hands_back_body (getUser userId w))
  /\ (forall user newNickname newMbti newPassword w,
        is_Some (heap w !! user) ->
        hands_back_body (editUser user newNickname newMbti newPassword w))
  /\ (forall user w, hands_back_body (deleteUser user w)).
Proof.
  repeat apply conj.
  - intros. apply always_pair, login_pair.
  - intros. apply always_pair, signUp_pair.
  - intros. apply always_pair, logout_pair.
  - intros a r w d n c H Hd. unfold hands_back_pair.
    rewrite (resignToken_run _ _ _ _ _ _ _ H).
    rewrite !elem_of_cons in Hd. destruct Hd as [-> | [-> | [-> | Hd]]].
    + rewrite strict_eq_refl. eauto.
    + rewrite strict_eq_refl. destruct (strict_eq _ _); eauto.
    + rewrite strict_eq_refl. do 2 (destruct (strict_eq _ _); eauto).
    + inversion Hd.
  - intros. apply always_body, getUser_body.
  - intros user nn nm np w [o H]. apply (editUser_body _ _ _ _ _ _ H).
  - intros. apply always_body, deleteUser_body.
Qed.

Lemma operations_result_shape_witness :
  hands_back_pair (resignToken Sample.ext (JStr "forged") (JStr "refresh:1") Sample.w1)
  /\ hands_back_body (editUser 0%nat (JStr "ally") JNull JNull Sample.w1).
Proof.
  split.
  - apply (proj1 (proj2 (proj2 (proj2 (operations_result_shape Sample.ext))))
             (JStr "forged") (JStr "refresh:1") Sample.w1
             (JStr "UNAUTHORIZED") JUndefined (redis Sample.w1)).
    + reflexivity.
    + apply list_elem_of_further, list_elem_of_here.
  - apply (proj1 (proj2 (proj2 (proj2 (proj2 (proj2 (operations_result_shape Sample.ext))))))
             0%nat (JStr "ally") JNull JNull Sample.w1).
    exists (User.load attributes Sample.alice). reflexivity.
Defined.

(** ** Failures of the collaborators *)

(** Against C3 as stated: [resignToken] lets the exception of the token
    utility through, and [logout] answers 200 while the cache failed and
    kept the entry. *)
Lemma resignToken_throws_and_logout_ignores :
  result (resignToken Sample.ext (JStr "garbled") (JStr "refresh:1") Sample.w1)
    = Throw "JsonWebTokenError"
  /\ result (logout (JNum 1) Sample.cache_down) =
     Return (VPair (JNum 200) (response (JNum 200) message.SUCCESS None))
  /\ redis (after (logout (JNum 1) Sample.cache_down)) !! "1" = Some (JStr "refresh:1").
Proof. split; [| split]; reflexivity. Qed.

(** * Further properties of the service *)

(** ** Operations that only read the store *)

Lemma keeps_store_ret {A : Type} (a : A) : keeps_store (mret a).
Proof. intros w. reflexivity. Qed.

Lemma keeps_store_bind {A B : Type} (m : M A) (k : A -> M B) :
  keeps_store m -> (forall a, keeps_store (k a)) -> keeps_store (m ≫= k).
Proof.
  intros Hm Hk w. specialize (Hm w). unfold after in *. rewrite bind_run.
  destruct (m w) as [[a|err] w1]; simpl in Hm |- *.
  - rewrite <- Hm. apply Hk.
  - exact Hm.
Qed.

Lemma keeps_store_try_catch {A : Type} (m : M A) (h : string -> M A) :
  keeps_store m -> (forall err, keeps_store (h err)) -> keeps_store (try_catch m h).
Proof.
  intros Hm Hh w. specialize (Hm w). unfold after, try_catch in *.
  destruct (m w) as [[a|err] w1]; simpl in Hm |- *.
  - exact Hm.
  - rewrite <- Hm. apply Hh.
Qed.

Lemma keeps_store_db_query : keeps_store db_query.
Proof. intros w. unfold db_query. destruct (db_faults w) as [|[] f]; reflexivity. Qed.

Lemma keeps_store_deref user : keeps_store (deref user).
Proof. intros w. unfold deref. destruct (heap w !! user); reflexivity. Qed.

Lemma keeps_store_on_redis {A : Type}
    (f : gmap string jsval -> outcome A * gmap string jsval) : keeps_store (on_redis f).
Proof. intros w. unfold on_redis. destruct (f (redis w)); reflexivity. Qed.

Lemma keeps_store_redisClient_del key : keeps_store (redisClient_del key).
Proof. intros w. unfold redisClient_del. destruct (redis_faults w) as [|[] f]; reflexivity. Qed.

Ltac frame :=
  repeat first
    [ apply keeps_store_ret
    | apply keeps_store_db_query
    | apply keeps_store_deref
    | apply keeps_store_on_redis
    | apply keeps_store_redisClient_del
    | apply keeps_store_bind; [| intros ?]
    | apply keeps_store_try_catch; [| intros ?]
    | match goal with
      | |- keeps_store (match ?x with _ => _ end) => destruct x
      | |- keeps_store (if ?b then _ else _) => destruct b
      | |- keeps_store (let _ := _ in _) => cbv zeta
      | |- keeps_store (emit _) => intros ?; reflexivity
      | |- keeps_store (lift _) => intros ?; reflexivity
      | |- keeps_store (gets _) => intros ?; reflexivity
      | |- keeps_store (alloc _) => intros ?; reflexivity
      | |- keeps_store (store _ _) => intros ?; reflexivity
      end ].

Lemma keeps_store_findOne col v attrs : keeps_store (User.findOne col v attrs).
Proof. unfold User.findOne. frame. Qed.

Lemma keeps_store_get_prop user key : keeps_store (get_prop user key).
Proof. unfold get_prop. frame. Qed.

Lemma keeps_store_getDataValue user key : keeps_store (getDataValue user key).
Proof. unfold getDataValue. frame. Qed.

Lemma keeps_store_login ext email password : keeps_store (login ext email password).
Proof.
  unfold login, login_try, login_catch, signTokens.
  repeat first [ apply keeps_store_findOne | apply keeps_store_getDataValue | progress frame ].
Qed.

Lemma keeps_store_findByPk key : keeps_store (User.findByPk key).
Proof.
  unfold User.findByPk. destruct key as [| |b|n|s].
  - apply keeps_store_ret.
  - apply keeps_store_ret.
  - intros w. reflexivity.
  - apply keeps_store_findOne.
  - destruct (integer_of_string s); apply keeps_store_findOne.
Qed.

Lemma keeps_store_getUser userId : keeps_store (getUser userId).
Proof.
  unfold getUser, getUser_try, db_error_catch.
  repeat first [ apply keeps_store_findByPk | progress frame ].
Qed.

Lemma keeps_store_logout userId : keeps_store (logout userId).
Proof. unfold logout. frame. Qed.

Lemma keeps_store_resignToken ext accessToken refreshToken :
  keeps_store (resignToken ext accessToken refreshToken).
Proof. unfold resignToken, resignAccessToken. frame. Qed.

(** X1. [login], [getUser], [logout] and [resignToken] never change a row
    of the User table nor its key counter: in every world, whatever the
    database, the cache and bcrypt do and whatever the token utility does
    to the session cache, and whether the operation returns or throws. *)
Theorem readers_keep_store ext :
  (forall email password w,
     store_of (after (login ext email password w)) = store_of w)
  /\ (forall userId w, store_of (after (getUser userId w)) = store_of w)
  /\ (forall userId w, store_of (after (logout userId w)) = store_of w)
  /\ (forall accessToken refreshToken w,
        store_of (after (resignToken ext accessToken refreshToken w)) = store_of w).
Proof.
  repeat apply conj.
  - intros email password. apply keeps_store_login.
  - intros userId. apply keeps_store_getUser.
  - intros userId. apply keeps_store_logout.
  - intros accessToken refreshToken. apply keeps_store_resignToken.
Qed.

(** ** signUp and the table *)

Lemma try_catch_store {A : Type} (m : M A) (h : string -> M A) w :
  (forall err, keeps_store (h err)) ->
  store_of (after (try_catch m h w)) = store_of (after (m w)).
Proof.
  intros Hh. unfold try_catch, after. destruct (m w) as [[a|err] w1]; simpl.
  - reflexivity.
  - apply Hh.
Qed.

Lemma keeps_store_signUp_catch err : keeps_store (signUp_catch err).
Proof. unfold signUp_catch. frame. Qed.

Lemma keeps_store_db_error_catch err : keeps_store (db_error_catch err).
Proof. unfold db_error_catch. frame. Qed.

Lemma findOne_None col v attrs w w1 :
  User.findOne col v attrs w = (Return None, w1) -> User.select col v (table w) = None.
Proof.
  unfold User.findOne. rewrite bind_run. unfold db_query.
  destruct (db_faults w) as [|[] f]; try discriminate;
    rewrite bind_run; unfold gets; cbn [table set_db_faults];
    destruct (User.select col v (table w)); (reflexivity || discriminate).
Qed.

Lemma create_cases email password nickname w :
  User.create email password nickname w = (Throw "SequelizeDatabaseError", tick w)
  \/ User.create email password nickname w =
     (Return (List.length (heap w)),
      set_heap (heap w ++ [mkInstance (list_to_map [("id", JNum (autoIncrement w));
                                                     ("email", email);
                                                     ("password", password);
                                                     ("nickname", nickname)]) []])
        (set_autoIncrement (autoIncrement w + 1)
           (set_table (table w ++ [Row.mk (autoIncrement w) email password nickname JNull false])
              (tick w)))).
Proof.
  unfold User.create. rewrite bind_run. unfold db_query, tick.
  destruct (db_faults w) as [|[] f]; [right | left | right]; reflexivity.
Qed.

Lemma keeps_store_after_create ext (newUser : nat) :
  keeps_store (get_prop newUser "user_id" ≫= fun userId =>
               signTokens ext userId ≫= fun '(accessToken, refreshToken) =>
               mret (VPair statusCode.OK
                       (response statusCode.OK message.SUCCESS
                          (Some (signUpResponse accessToken refreshToken))))).
Proof.
  unfold signTokens.
  repeat first [ apply keeps_store_get_prop | progress frame ].
Qed.

Lemma signUp_try_store ext email password nickname w :
  store_of (after (signUp_try ext email password nickname w)) = store_of w
  \/ exists hash,
       bcrypt_hashSync ext password 10 = Return hash
       /\ User.select "email" (JStr email) (table w) = None
       /\ User.select "nickname" (JStr nickname) (table w) = None
       /\ store_of (after (signUp_try ext email password nickname w)) =
          ((table w ++ [Row.mk (autoIncrement w) (JStr email) hash (JStr nickname)
                               JNull false])%list,
           autoIncrement w + 1).
Proof.
  assert (E : exists o W,
    signUp_try ext email password nickname w = (o, W)
    /\ (store_of W = store_of w
        \/ exists hash,
             bcrypt_hashSync ext password 10 = Return hash
             /\ User.select "email" (JStr email) (table w) = None
             /\ User.select "nickname" (JStr nickname) (table w) = None
             /\ store_of W =
                ((table w ++ [Row.mk (autoIncrement w) (JStr email) hash (JStr nickname)
                                     JNull false])%list,
                 autoIncrement w + 1))).
  { unfold signUp_try. rewrite bind_run.
    pose proof (keeps_store_findOne "email" (JStr email) attributes w) as H1.
    destruct (User.findOne "email" (JStr email) attributes w) as [[[u1|]|e1] w1] eqn:E1;
      unfold after in H1; simpl in H1; try (eexists _, _; split; [reflexivity | left; exact H1]).
    apply findOne_None in E1.
    assert (Ht1 : table w1 = table w) by (unfold store_of in H1; congruence).
    rewrite bind_run.
    pose proof (keeps_store_findOne "nickname" (JStr nickname) attributes w1) as H2.
    destruct (User.findOne "nickname" (JStr nickname) attributes w1) as [[[u2|]|e2] w2] eqn:E2;
      unfold after in H2; simpl in H2;
      try (eexists _, _; split; [reflexivity | left; congruence]).
    apply findOne_None in E2. rewrite Ht1 in E2.
    assert (Ht : table w2 = table w /\ autoIncrement w2 = autoIncrement w)
      by (unfold store_of in H1, H2; split; congruence).
    destruct Ht as [Ht Ha].
    rewrite bind_run. unfold lift at 1.
    destruct (bcrypt_hashSync ext password 10) as [hash|e3] eqn:Eh;
      [| eexists _, _; split; [reflexivity | left; congruence]].
    rewrite bind_run.
    destruct (create_cases (JStr email) hash (JStr nickname) w2) as [Ec | Ec]; rewrite Ec.
    - eexists _, _. split; [reflexivity | left].
      unfold store_of. simpl. unfold store_of in H1, H2. congruence.
    - match goal with |- context [(?k ?W)] =>
        match type of W with World =>
          pose proof (keeps_store_after_create ext (List.length (heap w2)) W) as Hk
        end
      end.
      unfold after in Hk.
      match type of Hk with store_of (snd ?run) = _ => destruct run as [o W'] eqn:Er end.
      exists o, W'. split; [reflexivity | right].
      exists hash. repeat (split; [assumption || reflexivity |]).
      simpl in Hk. rewrite Hk. unfold store_of.
      cbn [table autoIncrement set_heap set_autoIncrement set_table].
      rewrite Ht, Ha. reflexivity. }
  destruct E as (o & W & E & H). rewrite E. exact H.
Qed.

(** X2. Whatever happens, [signUp] leaves the rows already in the table as
    they are: after the call the table is either unchanged or has exactly
    one more row at its end, the new user under the next key, with the
    email and the nickname given and the hash of the password, and that
    only when neither value was taken. *)
Theorem signUp_appends_at_most_one ext email password nickname w :
  table (after (signUp ext email password nickname w)) = table w
  \/ exists hash,
       bcrypt_hashSync ext password 10 = Return hash
       /\ ~ taken "email" (JStr email) (table w)
       /\ ~ taken "nickname" (JStr nickname) (table w)
       /\ table (after (signUp ext email password nickname w)) =
          (table w ++
           [Row.mk (autoIncrement w) (JStr email) hash (JStr nickname) JNull false])%list.
Proof.
  pose proof (try_catch_store (signUp_try ext email password nickname) signUp_catch w
                keeps_store_signUp_catch) as Hc.
  fold (signUp ext email password nickname) in Hc.
  destruct (signUp_try_store ext email password nickname w) as [H | (hash & Hh & He & Hn & H)];
    rewrite H in Hc; unfold store_of in Hc.
  - left. congruence.
  - right. exists hash. rewrite <- !select_None. repeat (split; [assumption |]). congruence.
Qed.

Lemma signUp_try_fresh_run ext email password nickname w hash :
  db_ok 3 w ->
  User.select "email" (JStr email) (table w) = None ->
  User.select "nickname" (JStr nickname) (table w) = None ->
  bcrypt_hashSync ext password 10 = Return hash ->
  signUp_try ext email password nickname w =
  let w3 :=
    set_heap (heap w ++ [mkInstance (list_to_map [("id", JNum (autoIncrement w));
                                                   ("email", JStr email);
                                                   ("password", hash);
                                                   ("nickname", JStr nickname)]) []])
      (set_autoIncrement (autoIncrement w + 1)
         (set_table (table w ++ [Row.mk (autoIncrement w) (JStr email) hash
                                        (JStr nickname) JNull false])
            (tick (tick (tick w))))) in
  match jwt_signTokens ext JUndefined (redis w) with
  | (Return (accessToken, refreshToken), cache) =>
      (Return (VPair (JNum 200)
                 (response (JNum 200) message.SUCCESS
                    (Some (signUpResponse accessToken refreshToken)))),
       set_redis cache w3)
  | (Throw err, cache) => (Throw err, set_redis cache w3)
  end.
Proof.
  intros Hdb He Hn Hh. unfold signUp_try.
  pose proof (db_ok_tick 2 w Hdb) as Hdb1.
  pose proof (db_ok_tick 1 _ Hdb1) as Hdb2.
  rewrite bind_run, (findOne_ok 2 _ _ _ w Hdb), He.
  rewrite bind_run, (findOne_ok 1 _ _ _ (tick w) Hdb1).
  change (table (tick w)) with (table w). rewrite Hn.
  rewrite bind_run. unfold lift at 1. rewrite Hh.
  rewrite bind_run, (create_ok 0 _ _ _ _ Hdb2).
  rewrite bind_run.
  match goal with |- context [get_prop ?l "user_id" ?w2] =>
    assert (Hl : exists o, heap w2 !! l = Some o /\ read_prop "user_id" o = JUndefined)
      by (eexists; split; [apply lookup_alloc | reflexivity]);
    set (w3 := w2) in *
  end.
  destruct Hl as (o & Hl & Hu).
  rewrite (get_prop_run _ _ _ _ Hl), Hu.
  rewrite bind_run. unfold signTokens, on_redis. change (redis w3) with (redis w).
  cbv zeta.
  destruct (jwt_signTokens ext JUndefined (redis w)) as [[[a t]|err] c]; reflexivity.
Qed.

Lemma try_catch_return {A : Type} (m : M A) (h : string -> M A) w a w1 :
  m w = (Return a, w1) -> try_catch m h w = (Return a, w1).
Proof. intros H. unfold try_catch. rewrite H. reflexivity. Qed.

Lemma select_snoc col v t r :
  User.select col v t = None ->
  User.select col v (t ++ [r])%list = if User.matches col v r then Some r else None.
Proof.
  unfold User.select. induction t as [|x t IH]; simpl.
  - intros _. reflexivity.
  - destruct (User.matches col v x); [discriminate | exact IH].
Qed.

Lemma select_keep col v t r r' :
  User.select col v t = Some r' -> User.select col v (t ++ [r])%list = Some r'.
Proof.
  unfold User.select. induction t as [|x t IH]; simpl; [discriminate |].
  destruct (User.matches col v x); [trivial | exact IH].
Qed.

(** X3. [signUp] does not undo what it stored: when the token utility
    throws after the user was created, the caller gets the generic error
    pair and a line in the error log, and the new row is in the table all
    the same. *)
Theorem signUp_keeps_row_when_signing_fails ext email password nickname w hash err cache :
  db_ok 3 w ->
  ~ taken "email" (JStr email) (table w) ->
  ~ taken "nickname" (JStr nickname) (table w) ->
  bcrypt_hashSync ext password 10 = Return hash ->
  jwt_signTokens ext JUndefined (redis w) = (Throw err, cache) ->
  result (signUp ext email password nickname w) =
    Return (VPair statusCode.DB_ERROR
              (errResponse statusCode.DB_ERROR message.INTERNAL_SERVER_ERROR))
  /\ table (after (signUp ext email password nickname w)) =
     (table w ++
      [Row.mk (autoIncrement w) (JStr email) hash (JStr nickname) JNull false])%list
  /\ log (after (signUp ext email password nickname w)) =
     (log w ++ [logger_error ("signUp Service Err: " +:+ err)])%list.
Proof.
  intros Hdb He%select_None Hn%select_None Hh Hs. unfold signUp.
  rewrite (try_catch_throw _ _ _ _ _
             (eq_trans (signUp_try_fresh_run ext email password nickname w hash Hdb He Hn Hh)
                       ltac:(cbv zeta; rewrite Hs; reflexivity))).
  repeat split.
Qed.

Lemma signUp_keeps_row_when_signing_fails_witness :
  result (signUp Strict.ext "bob@pay.here" "pw" "bob" Sample.empty) =
    Return (VPair statusCode.DB_ERROR
              (errResponse statusCode.DB_ERROR message.INTERNAL_SERVER_ERROR))
  /\ table (after (signUp Strict.ext "bob@pay.here" "pw" "bob" Sample.empty)) =
     [Row.mk 1 (JStr "bob@pay.here") (JStr "$2b$pw") (JStr "bob") JNull false]
  /\ log (after (signUp Strict.ext "bob@pay.here" "pw" "bob" Sample.empty)) =
     [logger_error "signUp Service Err: TypeError: id is not a number"].
Proof.
  apply (signUp_keeps_row_when_signing_fails Strict.ext "bob@pay.here" "pw" "bob"
           Sample.empty (JStr "$2b$pw") "TypeError: id is not a number" ∅).
  - unfold db_ok. simpl. constructor.
  - apply select_None. reflexivity.
  - apply select_None. reflexivity.
  - reflexivity.
  - reflexivity.
Defined.

(** X4. A user who signed up can log in: after a successful [signUp], the
    [login] with the same email and password answers 200 with the tokens
    signed for the key of the row just created; bcrypt accepting the
    password against its own hash. *)
Theorem signUp_then_login ext email password nickname w hash tokens cache
    accessToken refreshToken cache' :
  db_ok 4 w ->
  ~ taken "email" (JStr email) (table w) ->
  ~ taken "nickname" (JStr nickname) (table w) ->
  bcrypt_hashSync ext password 10 = Return hash ->
  bcrypt_compareSync ext password hash = Return true ->
  jwt_signTokens ext JUndefined (redis w) = (Return tokens, cache) ->
  jwt_signTokens ext (JNum (autoIncrement w)) cache
    = (Return (accessToken, refreshToken), cache') ->
  result (login ext email password (after (signUp ext email password nickname w))) =
  Return (VPair (JNum 200)
            (response (JNum 200) message.SUCCESS
               (Some (loginResponse accessToken refreshToken)))).
Proof.
  intros Hdb He%select_None Hn%select_None Hh Hc Hs1 Hs2.
  assert (Hdb3 : db_ok 3 w) by (apply (db_ok_weaken 4); [lia | exact Hdb]).
  pose proof (signUp_try_fresh_run ext email password nickname w hash Hdb3 He Hn Hh) as E.
  cbv zeta in E. rewrite Hs1 in E. destruct tokens as [a t].
  unfold signUp at 1. rewrite (try_catch_return _ _ _ _ _ E).
  cbn [after snd]. set (w' := set_redis cache _).
  assert (Hdb' : db_ok 1 w').
  { change (db_ok 1 (tick (tick (tick w)))).
    repeat apply db_ok_tick. exact Hdb. }
  assert (Hsel : User.select "email" (JStr email) (table w') =
                 Some (Row.mk (autoIncrement w) (JStr email) hash (JStr nickname) JNull false)).
  { cbn [w' table set_redis set_heap set_autoIncrement set_table].
    change (table (tick (tick (tick w)))) with (table w).
    rewrite (select_snoc _ _ _ _ He). unfold User.matches. cbn [Row.deleted negb andb].
    rewrite strict_eq_refl. reflexivity. }
  unfold login. rewrite try_catch_result, (login_try_known _ _ _ _ _ Hdb' Hsel).
  cbn [Row.password Row.id]. rewrite Hc. change (redis w') with cache. rewrite Hs2.
  reflexivity.
Qed.

Lemma signUp_then_login_witness :
  result (login Sample.ext "bob@pay.here" "pw"
            (after (signUp Sample.ext "bob@pay.here" "pw" "bob" Sample.empty))) =
  Return (VPair (JNum 200)
            (response (JNum 200) message.SUCCESS
               (Some (loginResponse (JStr "access:1") (JStr "refresh:1"))))).
Proof.
  apply (signUp_then_login Sample.ext "bob@pay.here" "pw" "bob" Sample.empty
           (JStr "$2b$pw") (JStr "access:undefined", JStr "refresh:undefined")
           (<["undefined" := JStr "refresh:undefined"]> ∅)
           (JStr "access:1") (JStr "refresh:1")
           (<["1" := JStr "refresh:1"]> (<["undefined" := JStr "refresh:undefined"]> ∅))).
  - unfold db_ok. simpl. constructor.
  - apply select_None. reflexivity.
  - apply select_None. reflexivity.
  - reflexivity.
  - reflexivity.
  - reflexivity.
  - reflexivity.
Defined.

(** X5. An email or a nickname that was just registered is refused: after a
    successful [signUp], a second [signUp] with the same email answers 400
    ALREADY_EXIST_EMAIL whatever the password and the nickname, and one with
    another, free email and the same nickname answers 400
    ALREADY_EXIST_NICKNAME. *)
Theorem signUp_again_rejected ext email password nickname w hash tokens cache :
  db_ok 5 w ->
  ~ taken "email" (JStr email) (table w) ->
  ~ taken "nickname" (JStr nickname) (table w) ->
  bcrypt_hashSync ext password 10 = Return hash ->
  jwt_signTokens ext JUndefined (redis w) = (Return tokens, cache) ->
  (forall password' nickname',
     result (signUp ext email password' nickname'
               (after (signUp ext email password nickname w))) =
     Return (VPair (JNum 400) (errResponse (JNum 400) message.ALREADY_EXIST_EMAIL)))
  /\ (forall email' password',
        email' <> email ->
        ~ taken "email" (JStr email') (table w) ->
        result (signUp ext email' password' nickname
                  (after (signUp ext email password nickname w))) =
        Return (VPair (JNum 400) (errResponse (JNum 400) message.ALREADY_EXIST_NICKNAME))).
Proof.
  intros Hdb He%select_None Hn%select_None Hh Hs.
  assert (Hdb3 : db_ok 3 w) by (apply (db_ok_weaken 5); [lia | exact Hdb]).
  pose proof (signUp_try_fresh_run ext email password nickname w hash Hdb3 He Hn Hh) as E.
  cbv zeta in E. rewrite Hs in E. destruct tokens as [a t].
  unfold signUp at 2 4. rewrite (try_catch_return _ _ _ _ _ E).
  cbn [after snd]. set (w' := set_redis cache _).
  set (row := Row.mk (autoIncrement w) (JStr email) hash (JStr nickname) JNull false).
  assert (Hdb' : db_ok 2 w').
  { change (db_ok 2 (tick (tick (tick w)))). repeat apply db_ok_tick. exact Hdb. }
  assert (Ht : table w' = (table w ++ [row])%list) by reflexivity.
  split.
  - intros password' nickname'.
    assert (Hsel : User.select "email" (JStr email) (table w') = Some row).
    { rewrite Ht, (select_snoc _ _ _ _ He). unfold User.matches.
      cbn [row Row.deleted negb andb]. rewrite strict_eq_refl. reflexivity. }
    unfold signUp. rewrite try_catch_result.
    rewrite (signUp_try_email_taken _ _ _ _ _ _ (db_ok_weaken 2 1 _ ltac:(lia) Hdb') Hsel).
    reflexivity.
  - intros email' password' Hne He'%select_None.
    assert (Hsel1 : User.select "email" (JStr email') (table w') = None).
    { rewrite Ht, (select_snoc _ _ _ _ He'). unfold User.matches.
      cbn [row Row.deleted negb andb]. rewrite strict_eq_ne; [reflexivity |].
      change (Row.get "email" row) with (JStr email). congruence. }
    assert (Hsel2 : User.select "nickname" (JStr nickname) (table w') = Some row).
    { rewrite Ht, (select_snoc _ _ _ _ Hn). unfold User.matches.
      cbn [row Row.deleted negb andb]. rewrite strict_eq_refl. reflexivity. }
    unfold signUp. rewrite try_catch_result.
    rewrite (signUp_try_nickname_taken _ _ _ _ _ _ Hdb' Hsel1 Hsel2). reflexivity.
Qed.

Lemma signUp_again_rejected_witness :
  result (signUp Sample.ext "bob@pay.here" "other" "bobby"
            (after (signUp Sample.ext "bob@pay.here" "pw" "bob" Sample.w1))) =
    Return (VPair (JNum 400) (errResponse (JNum 400) message.ALREADY_EXIST_EMAIL))
  /\ result (signUp Sample.ext "carol@pay.here" "pw" "bob"
               (after (signUp Sample.ext "bob@pay.here" "pw" "bob" Sample.w1))) =
     Return (VPair (JNum 400) (errResponse (JNum 400) message.ALREADY_EXIST_NICKNAME)).
Proof.
  pose proof (signUp_again_rejected Sample.ext "bob@pay.here" "pw" "bob" Sample.w1
                (JStr "$2b$pw") (JStr "access:undefined", JStr "refresh:undefined")
                (<["undefined" := JStr "refresh:undefined"]> (redis Sample.w1))
                (sample_db_ok 5) sample_bob_free_email sample_bob_free_nickname
                eq_refl eq_refl) as [Hemail Hnickname].
  split.
  - apply Hemail.
  - apply Hnickname.
    + discriminate.
    + apply select_None. reflexivity.
Defined.

(** ** deleteUser *)

Lemma destroy_ok w user o :
  heap w !! user = Some o ->
  db_ok 1 w ->
  User.destroy user w =
  (Return tt,
   set_heap (<[user := mkInstance (props (User.deleting o)) []]> (heap w))
     (set_table (User.write_back (User.deleting o) <$> table w) (tick w))).
Proof.
  intros H Hdb. unfold User.destroy.
  rewrite bind_run, (deref_run _ _ _ H), bind_run. cbn [store modify].
  set (w' := set_heap _ w).
  assert (H' : heap w' !! user = Some (User.deleting o)).
  { cbn [w' heap set_heap]. apply list_lookup_insert_eq. eapply lookup_lt_Some, H. }
  rewrite (save_ok _ _ _ H' Hdb). cbn [User.deleting changed].
  cbn [w' heap set_heap]. rewrite list_insert_insert_eq. reflexivity.
Qed.

Lemma deleteUser_run w user o :
  heap w !! user = Some o ->
  db_ok 1 w ->
  deleteUser user w =
  (Return (VBody (response (JNum 200) message.SUCCESS (Some (deletedPayload user)))),
   set_heap (<[user := mkInstance (props (User.deleting o)) []]> (heap w))
     (set_table (User.write_back (User.deleting o) <$> table w) (tick w))).
Proof.
  intros H Hdb. unfold deleteUser, try_catch, deleteUser_try.
  rewrite bind_run, (get_prop_run _ _ _ _ H), bind_run, (get_prop_run _ _ _ _ H).
  rewrite bind_run, (destroy_ok _ _ _ H Hdb). reflexivity.
Qed.

Lemma is_row_of_id o n r :
  read_prop "id" o = JNum n -> User.is_row_of o r = Z.eqb (Row.id r) n.
Proof.
  intros H. unfold User.is_row_of, strict_eq. rewrite H.
  destruct (Z.eqb_spec (Row.id r) n) as [-> | Hne].
  - apply bool_decide_eq_true. reflexivity.
  - apply bool_decide_eq_false. congruence.
Qed.

Lemma read_prop_deleting o col :
  col <> "deletedAt" -> read_prop col (User.deleting o) = read_prop col o.
Proof.
  intros Hne. unfold read_prop, User.deleting. cbn [props].
  rewrite lookup_insert_ne by congruence. reflexivity.
Qed.

Lemma is_row_of_deleting o r : User.is_row_of (User.deleting o) r = User.is_row_of o r.
Proof. unfold User.is_row_of. rewrite read_prop_deleting by discriminate. reflexivity. Qed.

(** What an update writes: never the key, and in each column the last
    value set. *)
Lemma Row_id_set col v r : Row.id (Row.set col v r) = Row.id r.
Proof. unfold Row.set. repeat (destruct (String.eqb col _); [reflexivity |]). reflexivity. Qed.

Lemma Row_id_update o cols r :
  Row.id (foldr (fun col r => Row.set col (read_prop col o) r) r cols) = Row.id r.
Proof.
  induction cols as [|c cols IH]; [reflexivity |].
  cbn [foldr]. rewrite Row_id_set. exact IH.
Qed.

Lemma Row_get_set_eq col v r :
  col ∈ ["email"; "password"; "nickname"; "mbti"] -> Row.get col (Row.set col v r) = v.
Proof.
  rewrite !elem_of_cons. intros [-> | [-> | [-> | [-> | H]]]]; [reflexivity.. |].
  inversion H.
Qed.

Lemma Row_get_set_ne col col' v r :
  col ∈ ["email"; "password"; "nickname"; "mbti"] -> col <> col' ->
  Row.get col (Row.set col' v r) = Row.get col r.
Proof.
  rewrite !elem_of_cons. intros Hc Hne.
  assert (E : forall name, Row.get col
            (if String.eqb col' name then r else r) = Row.get col r)
    by (intros name; destruct (String.eqb col' name); reflexivity).
  unfold Row.set.
  repeat match goal with
         | |- context [String.eqb col' ?name] =>
             destruct (String.eqb_spec col' name) as [-> | _]
         end;
    try reflexivity;
    destruct Hc as [-> | [-> | [-> | [-> | H]]]];
    first [ reflexivity | congruence | inversion H ].
Qed.

Lemma Row_get_update o col cols r :
  col ∈ ["email"; "password"; "nickname"; "mbti"] ->
  Row.get col (foldr (fun col r => Row.set col (read_prop col o) r) r cols) =
  if bool_decide (col ∈ cols) then read_prop col o else Row.get col r.
Proof.
  intros Hc. induction cols as [|c cols IH]; cbn [foldr].
  - rewrite bool_decide_eq_false_2 by apply not_elem_of_nil. reflexivity.
  - destruct (decide (col = c)) as [<- | Hne].
    + rewrite (Row_get_set_eq _ _ _ Hc).
      rewrite bool_decide_eq_true_2 by apply list_elem_of_here. reflexivity.
    + rewrite (Row_get_set_ne _ _ _ _ Hc Hne), IH.
      destruct (decide (col ∈ cols)) as [Hin | Hout].
      * rewrite !bool_decide_eq_true_2; [reflexivity | | assumption].
        apply list_elem_of_further. exact Hin.
      * rewrite !bool_decide_eq_false_2; [reflexivity | | assumption].
        rewrite elem_of_cons. intros [? | ?]; contradiction.
Qed.

(** A row written back by a destroyed instance: the rows of another key
    are left alone, the rows of its key are marked deleted. *)
Lemma write_back_deleting_other o n r :
  read_prop "id" o = JNum n -> Row.id r <> n ->
  User.write_back (User.deleting o) r = r.
Proof.
  intros Ho Hne. unfold User.write_back.
  rewrite is_row_of_deleting, (is_row_of_id _ _ r Ho).
  destruct (Z.eqb_spec (Row.id r) n); [contradiction | reflexivity].
Qed.

Lemma write_back_deleting_own o n r :
  read_prop "id" o = JNum n -> Row.id r = n ->
  User.write_back (User.deleting o) r =
  Row.mark_deleted
    (foldr (fun col r => Row.set col (read_prop col (User.deleting o)) r) r (changed o)).
Proof.
  intros Ho He. unfold User.write_back.
  rewrite is_row_of_deleting, (is_row_of_id _ _ r Ho).
  destruct (Z.eqb_spec (Row.id r) n); [| contradiction].
  change (changed (User.deleting o)) with ("deletedAt" :: changed o). cbn [foldr].
  assert (Hd : read_prop "deletedAt" (User.deleting o) = User.deletion_time).
  { unfold read_prop, User.deleting. cbn [props]. rewrite lookup_insert_eq. reflexivity. }
  rewrite Hd. reflexivity.
Qed.

(** The rows of one key marked deleted, no lookup finds what only they
    matched. *)
Lemma select_after_delete col v o n (t : list Row.t) :
  read_prop "id" o = JNum n ->
  (forall r, r ∈ t -> User.matches col v r = true -> Row.id r = n) ->
  User.select col v (User.write_back (User.deleting o) <$> t) = None.
Proof.
  intros Ho. unfold User.select. induction t as [|x t IH]; intros H; [reflexivity |].
  rewrite fmap_cons. cbn [find].
  destruct (Z.eq_dec (Row.id x) n) as [E | Hne].
  - rewrite (write_back_deleting_own _ _ _ Ho E).
    unfold User.matches at 1. cbn [Row.mark_deleted Row.deleted negb andb].
    apply IH. intros r Hr. apply H. right. exact Hr.
  - rewrite (write_back_deleting_other _ _ _ Ho Hne).
    destruct (User.matches col v x) eqn:Em.
    + exfalso. apply Hne, H; [left | exact Em].
    + apply IH. intros r Hr. apply H. right. exact Hr.
Qed.

(** X6. [deleteUser] removes nothing and touches the rows of its user
    only: with the database up it answers 200 with the user as the deleted
    payload; the table keeps every row in its place; a row under another
    key is as it was; a row under the key of the instance keeps its key,
    gets the deleted mark and, in each column, the value the instance had
    pending for it, or else the value it had. *)
Theorem deleteUser_marks_rows w user o n :
  heap w !! user = Some o ->
  read_prop "id" o = JNum n ->
  db_ok 1 w ->
  result (deleteUser user w) =
    Return (VBody (response (JNum 200) message.SUCCESS (Some (deletedPayload user))))
  /\ List.length (table (after (deleteUser user w))) = List.length (table w)
  /\ (forall i r,
        table w !! i = Some r -> Row.id r <> n ->
        table (after (deleteUser user w)) !! i = Some r)
  /\ (forall i r,
        table w !! i = Some r -> Row.id r = n ->
        exists r',
          table (after (deleteUser user w)) !! i = Some r'
          /\ Row.id r' = n
          /\ Row.deleted r' = true
          /\ forall col,
               col ∈ ["email"; "password"; "nickname"; "mbti"] ->
               Row.get col r' =
               if bool_decide (col ∈ changed o) then read_prop col o else Row.get col r).
Proof.
  intros H Ho Hdb. rewrite (deleteUser_run _ _ _ H Hdb).
  cbn [result after fst snd table set_table set_heap].
  split; [reflexivity | split; [| split]].
  - apply length_fmap.
  - intros i r Hi Hne. rewrite list_lookup_fmap, Hi. cbn [fmap option_fmap option_map].
    rewrite (write_back_deleting_other _ _ _ Ho Hne). reflexivity.
  - intros i r Hi He. eexists. split; [| split; [| split]].
    + rewrite list_lookup_fmap, Hi. cbn [fmap option_fmap option_map].
      rewrite (write_back_deleting_own _ _ _ Ho He). reflexivity.
    + cbn [Row.mark_deleted Row.id]. rewrite Row_id_update. exact He.
    + reflexivity.
    + intros col Hc.
      assert (Hd : col <> "deletedAt")
        by (rewrite !elem_of_cons in Hc;
            destruct Hc as [-> | [-> | [-> | [-> | Hc]]]]; [discriminate.. | inversion Hc]).
      transitivity (Row.get col
        (foldr (fun col r => Row.set col (read_prop col (User.deleting o)) r) r (changed o))).
      * rewrite !elem_of_cons in Hc.
        destruct Hc as [-> | [-> | [-> | [-> | Hc]]]]; [reflexivity.. | inversion Hc].
      * rewrite (Row_get_update _ _ _ _ Hc), (read_prop_deleting _ _ Hd). reflexivity.
Qed.

Lemma deleteUser_marks_rows_witness :
  result (deleteUser 0%nat Pending.w2) =
    Return (VBody (response (JNum 200) message.SUCCESS (Some (deletedPayload 0%nat))))
  /\ List.length (table (after (deleteUser 0%nat Pending.w2))) = 2%nat
  /\ (forall i r,
        table Pending.w2 !! i = Some r -> Row.id r <> 1 ->
        table (after (deleteUser 0%nat Pending.w2)) !! i = Some r)
  /\ (forall i r,
        table Pending.w2 !! i = Some r -> Row.id r = 1 ->
        exists r',
          table (after (deleteUser 0%nat Pending.w2)) !! i = Some r'
          /\ Row.id r' = 1
          /\ Row.deleted r' = true
          /\ forall col,
               col ∈ ["email"; "password"; "nickname"; "mbti"] ->
               Row.get col r' =
               if bool_decide (col ∈ ["nickname"])
               then read_prop col (assign "nickname" (JStr "ally")
                                     (User.load attributes Sample.alice))
               else Row.get col r).
Proof.
  apply (deleteUser_marks_rows Pending.w2 0%nat
           (assign "nickname" (JStr "ally") (User.load attributes Sample.alice)) 1).
  - reflexivity.
  - reflexivity.
  - unfold db_ok. simpl. constructor.
Defined.

(** The run of the witness, row by row: the first user is marked deleted
    and gets the nickname that was pending, the second user is as before. *)
Example deleteUser_of_pending_instance :
  table (after (deleteUser 0%nat Pending.w2)) =
  [Row.mk 1 (JStr "alice@pay.here") (JStr "$2b$secret") (JStr "ally") (JStr "INTJ") true;
   Pending.bob].
Proof. reflexivity. Qed.

(** X7. A deleted user is gone for the service: after [deleteUser],
    [getUser] with the key of that user answers NO_CONTENT with NULL_VALUE,
    and [login] with an email that only that user had answers 400
    INVALID_USER_INFO whatever the password. *)
Theorem deleted_user_not_found ext w user o n :
  heap w !! user = Some o ->
  read_prop "id" o = JNum n ->
  db_ok 2 w ->
  result (getUser (JNum n) (after (deleteUser user w))) =
    Return (VBody (errResponse statusCode.NO_CONTENT message.NULL_VALUE))
  /\ forall email password,
       (forall r, r ∈ table w -> Row.email r = JStr email -> Row.id r = n) ->
       result (login ext email password (after (deleteUser user w))) =
       Return (VPair (JNum 400) (errResponse (JNum 400) message.INVALID_USER_INFO)).
Proof.
  intros H Ho Hdb.
  rewrite (deleteUser_run _ _ _ H (db_ok_weaken 2 1 _ ltac:(lia) Hdb)).
  cbn [after snd]. set (w' := set_heap _ _).
  assert (Hdb' : db_ok 1 w') by (apply (db_ok_tick 1 w Hdb)).
  split.
  - unfold getUser, getUser_try, User.findByPk. rewrite try_catch_result.
    rewrite bind_run, (findOne_ok 0 _ _ _ w' Hdb').
    cbn [w' table set_table set_heap].
    rewrite (select_after_delete "id" (JNum n) o n (table w) Ho); [reflexivity |].
    intros r _ Hm. unfold User.matches, strict_eq in Hm.
    apply andb_prop in Hm as [_ Hm]. apply bool_decide_eq_true in Hm.
    change (Row.get "id" r) with (JNum (Row.id r)) in Hm. congruence.
  - intros email password Hu. unfold login. rewrite try_catch_result.
    rewrite (login_try_unknown _ _ _ _ Hdb'); [reflexivity |].
    cbn [w' table set_table set_heap].
    apply (select_after_delete "email" (JStr email) o n (table w) Ho).
    intros r Hr Hm. apply (Hu r Hr). unfold User.matches, strict_eq in Hm.
    apply andb_prop in Hm as [_ Hm]. apply bool_decide_eq_true in Hm. exact Hm.
Qed.

Lemma deleted_user_not_found_witness :
  result (getUser (JNum 1) (after (deleteUser 0%nat Sample.w1))) =
    Return (VBody (errResponse statusCode.NO_CONTENT message.NULL_VALUE))
  /\ result (login Sample.ext "alice@pay.here" "secret" (after (deleteUser 0%nat Sample.w1))) =
     Return (VPair (JNum 400) (errResponse (JNum 400) message.INVALID_USER_INFO)).
Proof.
  pose proof (deleted_user_not_found Sample.ext Sample.w1 0%nat
                (User.load attributes Sample.alice) 1 eq_refl eq_refl (sample_db_ok 2))
    as [Hget Hlogin].
  split.
  - exact Hget.
  - apply Hlogin. intros r Hr _. apply list_elem_of_singleton in Hr. subst r. reflexivity.
Defined.

(** ** editUser *)

Lemma skipped_falsy key v o : truthy v = false -> skipped key (default_null v) o = true.
Proof.
  intros H. unfold skipped. apply orb_true_iff. right.
  destruct v; simpl in *; try reflexivity; rewrite H; reflexivity.
Qed.

Lemma skipped_props key v o1 o2 : props o1 = props o2 -> skipped key v o1 = skipped key v o2.
Proof. intros H. unfold skipped, read_prop. rewrite H. reflexivity. Qed.

Lemma edit_loop_all_skipped entries o updatedData :
  Forall (fun e => skipped e.1 e.2 o = true) entries ->
  edit_loop entries o updatedData = (o, updatedData).
Proof.
  induction 1 as [|[key v] rest Hs _ IH]; cbn [edit_loop]; [reflexivity |].
  simpl in Hs. rewrite Hs. exact IH.
Qed.

(** The loop writes under the keys of its entries and nowhere else. *)
Lemma edit_loop_other_keys entries : forall o updatedData key,
  key ∉ entries.*1 ->
  props (fst (edit_loop entries o updatedData)) !! key = props o !! key.
Proof.
  induction entries as [|[k v] rest IH]; intros o ud key Hk; cbn [edit_loop]; [reflexivity |].
  rewrite fmap_cons, not_elem_of_cons in Hk. destruct Hk as [Hne Hk]. simpl in Hne.
  destruct (skipped k v o); rewrite (IH _ _ _ Hk); [reflexivity |].
  cbn [assign props]. apply lookup_insert_ne. congruence.
Qed.

Lemma edit_loop_changed entries : forall o updatedData,
  Forall (fun e => is_attribute e.1 = false) entries ->
  changed (fst (edit_loop entries o updatedData)) = changed o.
Proof.
  induction entries as [|[k v] rest IH]; intros o ud Hk; cbn [edit_loop]; [reflexivity |].
  inversion Hk as [|? ? Hh Ht]; subst. simpl in Hh.
  destruct (skipped k v o); rewrite (IH _ _ Ht); [reflexivity |].
  cbn [assign changed]. rewrite Hh. reflexivity.
Qed.

(** Once the loop has run, each of its entries is one it would skip. *)
Lemma edit_loop_settled entries : forall o updatedData,
  NoDup entries.*1 ->
  Forall (fun e => skipped e.1 e.2 (fst (edit_loop entries o updatedData)) = true) entries.
Proof.
  induction entries as [|[k v] rest IH]; intros o ud Hnd; [constructor |].
  rewrite fmap_cons in Hnd. apply NoDup_cons in Hnd as [Hk Hnd]. simpl in Hk.
  cbn [edit_loop]. destruct (skipped k v o) eqn:Hs; constructor; try (apply IH, Hnd); simpl.
  - unfold skipped, read_prop in *. rewrite (edit_loop_other_keys _ _ _ _ Hk). exact Hs.
  - unfold skipped, read_prop. rewrite (edit_loop_other_keys _ _ _ _ Hk).
    cbn [assign props]. rewrite lookup_insert_eq. simpl. rewrite strict_eq_refl. reflexivity.
Qed.

Lemma dataToEdit_keys a b c :
  NoDup (dataToEdit a b c).*1
  /\ Forall (fun e => is_attribute e.1 = false) (dataToEdit a b c).
Proof.
  split.
  - apply (bool_decide_unpack _). vm_compute. exact I.
  - repeat constructor.
Qed.

(** What a call of [editUser] leaves of the instance and of the table. *)
Lemma editUser_leaves w user o newNickname newMbti newPassword :
  heap w !! user = Some o ->
  let o1 := fst (edit_loop (dataToEdit (default_null newNickname) (default_null newMbti)
                                       (default_null newPassword)) o []) in
  let run := editUser user newNickname newMbti newPassword w in
  (exists o', heap (after run) !! user = Some o' /\ props o' = props o1)
  /\ (table (after run) = table w \/ table (after run) = User.write_back o1 <$> table w).
Proof.
  intros H o1 run. subst run. rewrite (editUser_run _ _ _ _ _ _ H). cbv zeta. fold o1.
  set (w' := set_heap _ w).
  assert (H' : heap w' !! user = Some o1).
  { cbn [w' heap set_heap]. apply list_lookup_insert_eq. eapply lookup_lt_Some, H. }
  destruct (Nat.eqb _ 0).
  - split; [exists o1; split; [exact H' | reflexivity] | left; reflexivity].
  - unfold try_catch, editUser_try, User.save.
    rewrite bind_run, bind_run, (deref_run _ _ _ H').
    destruct (changed o1) as [|c cs] eqn:Hc.
    { cbn -[w' o1]. split; [exists o1; split; [exact H' | reflexivity] | left; reflexivity]. }
    rewrite bind_run.
    unfold db_query. destruct (db_faults w') as [|[] f]; cbn -[w' o1];
      (split; [| (left; reflexivity) || (right; reflexivity)]).
    + eexists. split; [apply list_lookup_insert_eq; eapply lookup_lt_Some, H' | reflexivity].
    + exists o1. split; [exact H' | reflexivity].
    + eexists. split; [apply list_lookup_insert_eq; eapply lookup_lt_Some, H' | reflexivity].
Qed.

(** X8. With nothing to change [editUser] touches nothing: when each of the
    three values is falsy (absent, [null], the empty string, [0] or
    [false]), it answers BAD_REQUEST and leaves the whole world as it was,
    without a call to the database, so also when the database is down. *)
Theorem editUser_without_values w user o newNickname newMbti newPassword :
  heap w !! user = Some o ->
  truthy newNickname = false ->
  truthy newMbti = false ->
  truthy newPassword = false ->
  editUser user newNickname newMbti newPassword w =
  (Return (VBody (errResponse statusCode.BAD_REQUEST message.BAD_REQUEST)), w).
Proof.
  intros H H1 H2 H3. rewrite (editUser_run _ _ _ _ _ _ H). cbv zeta.
  rewrite edit_loop_all_skipped.
  - cbn [fst snd List.length Nat.eqb]. rewrite (set_heap_same _ _ _ H). reflexivity.
  - unfold dataToEdit. repeat constructor; cbn [fst snd]; apply skipped_falsy; assumption.
Qed.

Lemma editUser_without_values_witness :
  editUser 0%nat JNull (JStr "") JUndefined Sample.db_down =
  (Return (VBody (errResponse statusCode.BAD_REQUEST message.BAD_REQUEST)), Sample.db_down).
Proof.
  apply (editUser_without_values Sample.db_down 0%nat (User.load attributes Sample.alice)
           JNull (JStr "") JUndefined); reflexivity.
Defined.

(** X9. The same edit does not go through twice: after any call of
    [editUser] on a user object, whether it answered 200, 400 or the
    database error, the same call again answers BAD_REQUEST, since the
    values already sit on the instance; a save that failed is not tried
    again. *)
Theorem editUser_again_rejected w user o newNickname newMbti newPassword :
  heap w !! user = Some o ->
  result (editUser user newNickname newMbti newPassword
            (after (editUser user newNickname newMbti newPassword w))) =
  Return (VBody (errResponse statusCode.BAD_REQUEST message.BAD_REQUEST)).
Proof.
  intros H.
  destruct (editUser_leaves w user o newNickname newMbti newPassword H)
    as [(o' & Ho' & Hp) _].
  rewrite (editUser_run _ _ _ _ _ _ Ho'). cbv zeta.
  rewrite edit_loop_all_skipped; [reflexivity |].
  eapply Forall_impl; [apply edit_loop_settled, dataToEdit_keys |].
  intros [k v] Hs. cbn [fst snd] in Hs |- *. rewrite (skipped_props k v _ _ Hp). exact Hs.
Qed.

Lemma editUser_again_rejected_witness :
  result (editUser 0%nat (JStr "ally") JNull JNull
            (after (editUser 0%nat (JStr "ally") JNull JNull Sample.db_down))) =
  Return (VBody (errResponse statusCode.BAD_REQUEST message.BAD_REQUEST)).
Proof.
  apply (editUser_again_rejected Sample.db_down 0%nat (User.load attributes Sample.alice)
           (JStr "ally") JNull JNull).
  reflexivity.
Defined.

(** X10. [editUser] never writes an attribute: whatever the three values,
    after the call each attribute of the instance (id, email, password,
    nickname, mbti) reads as before, and the table is unchanged when the
    instance had no change pending. *)
Theorem editUser_keeps_attributes w user o newNickname newMbti newPassword :
  heap w !! user = Some o ->
  (exists o', heap (after (editUser user newNickname newMbti newPassword w)) !! user = Some o'
              /\ forall key, is_attribute key = true -> read_prop key o' = read_prop key o)
  /\ (changed o = [] ->
      table (after (editUser user newNickname newMbti newPassword w)) = table w).
Proof.
  intros H.
  destruct (editUser_leaves w user o newNickname newMbti newPassword H)
    as [(o' & Ho' & Hp) Ht].
  split.
  - exists o'. split; [exact Ho' |]. intros key Hk. unfold read_prop. rewrite Hp.
    rewrite edit_loop_other_keys; [reflexivity |].
    unfold dataToEdit. cbn [fmap list_fmap fst]. rewrite !not_elem_of_cons.
    repeat split; try (intros ->; discriminate Hk). apply not_elem_of_nil.
  - intros Hc. destruct Ht as [Ht | Ht]; [exact Ht |]. rewrite Ht.
    apply write_back_unchanged.
    rewrite (edit_loop_changed _ _ _ (proj2 (dataToEdit_keys _ _ _))). exact Hc.
Qed.

Lemma editUser_keeps_attributes_witness :
  (exists o', heap (after (editUser 0%nat (JStr "ally") (JStr "ENFP") (JStr "changed")
                             Sample.w1)) !! 0%nat = Some o'
              /\ forall key, is_attribute key = true ->
                             read_prop key o' = read_prop key (User.load attributes Sample.alice))
  /\ table (after (editUser 0%nat (JStr "ally") (JStr "ENFP") (JStr "changed") Sample.w1)) =
     [Sample.alice].
Proof.
  pose proof (editUser_keeps_attributes Sample.w1 0%nat (User.load attributes Sample.alice)
                (JStr "ally") (JStr "ENFP") (JStr "changed") eq_refl) as [Hi Ht].
  split.
  - exact Hi.
  - apply Ht. reflexivity.
Defined.

(** X11. Without a user object [editUser] throws: its loop reads the user
    before the [try] block, so the [TypeError] reaches the caller, whereas
    [deleteUser] reads the user inside its [try] block and answers the
    database error. *)
Theorem editUser_without_user_throws w user newNickname newMbti newPassword :
  heap w !! user = None ->
  result (editUser user newNickname newMbti newPassword w) = Throw "TypeError"
  /\ result (deleteUser user w) =
     Return (VBody (errResponse statusCode.DB_ERROR message.DB_ERROR)).
Proof.
  intros H.
  assert (Hg : forall key, get_prop user key w = (Throw "TypeError", w)).
  { intros key. unfold get_prop, deref. rewrite bind_run, H. reflexivity. }
  assert (Hs : forall key v updatedData,
             editUser_step user key v updatedData w = (Throw "TypeError", w)).
  { intros key v ud. unfold editUser_step. rewrite bind_run, Hg. reflexivity. }
  split.
  - unfold editUser. cbv zeta. unfold dataToEdit. cbn [for_in].
    rewrite !bind_run, Hs. reflexivity.
  - unfold deleteUser, deleteUser_try. rewrite try_catch_result, bind_run, Hg. reflexivity.
Qed.

Lemma editUser_without_user_throws_witness :
  result (editUser 7%nat (JStr "ally") JNull JNull Sample.w1) = Throw "TypeError"
  /\ result (deleteUser 7%nat Sample.w1) =
     Return (VBody (errResponse statusCode.DB_ERROR message.DB_ERROR)).
Proof.
  apply (editUser_without_user_throws Sample.w1 7%nat (JStr "ally") JNull JNull).
  reflexivity.
Defined.

(** ** What login and getUser give away *)

Lemma login_try_known_log ext email password w r :
  db_ok 1 w ->
  User.select "email" (JStr email) (table w) = Some r ->
  exists o W rest,
    login_try ext email password w = (o, W)
    /\ log W = (log w ++ console_log (to_String (Row.password r)) :: rest)%list.
Proof.
  intros Hdb Hsel. unfold login_try.
  rewrite bind_run, (findOne_ok 0 _ _ _ w Hdb), Hsel.
  set (w0 := set_heap _ _).
  assert (Hh : heap w0 !! List.length (heap w) = Some (User.load ["id"; "password"] r))
    by apply lookup_alloc.
  rewrite bind_run, (getDataValue_run _ _ _ "password" Hh eq_refl), load_password.
  rewrite bind_run. cbn [emit].
  rewrite bind_run. unfold lift at 1.
  destruct (bcrypt_compareSync ext password (Row.password r)) as [b|err] eqn:Hc.
  2:{ eexists _, _, []. split; reflexivity. }
  rewrite bind_run. cbn [emit]. rewrite bind_run. unfold lift at 1.
  destruct b; cbn [negb].
  2:{ eexists _, _, [_]. split; [reflexivity |].
      cbn [log set_log w0 set_heap tick set_db_faults]. rewrite <- app_assoc. reflexivity. }
  rewrite bind_run.
  match goal with |- context [getDataValue _ "id" ?w2] =>
    assert (Hh2 : heap w2 !! List.length (heap w) = Some (User.load ["id"; "password"] r))
      by apply lookup_alloc;
    rewrite (getDataValue_run w2 _ _ "id" Hh2 eq_refl), load_id; set (w3 := w2)
  end.
  rewrite bind_run. unfold signTokens, on_redis.
  destruct (jwt_signTokens ext (JNum (Row.id r)) (redis w3)) as [[[a t]|err] c];
    (eexists _, _, [_]; split; [reflexivity |]);
    cbn [log set_redis w3 set_log w0 set_heap tick set_db_faults];
    rewrite <- app_assoc; reflexivity.
Qed.

(** X12. [login] prints the stored password hash: whenever the email is
    that of a user, the hash read from the row goes to the console, before
    the password is compared and whatever the outcome of the call. *)
Theorem login_prints_stored_hash ext email password w r :
  db_ok 1 w ->
  User.select "email" (JStr email) (table w) = Some r ->
  exists rest,
    log (after (login ext email password w)) =
    (log w ++ console_log (to_String (Row.password r)) :: rest)%list.
Proof.
  intros Hdb Hsel.
  destruct (login_try_known_log ext email password w r Hdb Hsel) as (o & W & rest & E & Hl).
  unfold login, try_catch. rewrite E. destruct o as [v|err].
  - exists rest. exact Hl.
  - exists (rest ++ [logger_error ("login Service Err: " +:+ err)])%list.
    rewrite login_catch_run. cbn [after snd log set_log].
    rewrite Hl, <- app_assoc. reflexivity.
Qed.

Lemma login_prints_stored_hash_witness :
  exists rest,
    log (after (login Sample.ext "alice@pay.here" "guess" Sample.w1)) =
    console_log "$2b$secret" :: rest.
Proof.
  apply (login_prints_stored_hash Sample.ext "alice@pay.here" "guess" Sample.w1 Sample.alice).
  - apply sample_db_ok.
  - reflexivity.
Defined.

(** X13. [getUser] hands back the whole row: for a key some user has, the
    payload of the 200 response is a new instance that holds the id, the
    email, the nickname, the mbti and also the stored password hash. *)
Theorem getUser_hands_back_whole_row userId w r :
  db_ok 1 w ->
  User.select "id" userId (table w) = Some r ->
  exists user o,
    result (getUser userId w) =
      Return (VBody (response statusCode.OK message.SUCCESS (Some (userPayload user))))
    /\ heap w !! user = None
    /\ heap (after (getUser userId w)) !! user = Some o
    /\ read_prop "id" o = JNum (Row.id r)
    /\ read_prop "email" o = Row.email r
    /\ read_prop "password" o = Row.password r
    /\ read_prop "nickname" o = Row.nickname r
    /\ read_prop "mbti" o = Row.mbti r.
Proof.
  intros Hdb Hsel. exists (List.length (heap w)), (User.load attributes r).
  assert (Hk : userId = JNum (Row.id r)).
  { unfold User.select in Hsel. apply find_some in Hsel as [_ Hm].
    unfold User.matches, strict_eq in Hm. apply andb_prop in Hm as [_ Hm].
    apply bool_decide_eq_true in Hm. symmetry. exact Hm. }
  rewrite Hk in Hsel |- *.
  unfold getUser, try_catch, getUser_try, User.findByPk.
  rewrite bind_run, (findOne_ok 0 _ _ _ w Hdb), Hsel.
  cbn [result after fst snd mret M_ret heap set_heap].
  split; [reflexivity | split; [| split]].
  - apply lookup_ge_None. lia.
  - change (heap (tick w)) with (heap w). apply lookup_alloc.
  - repeat split.
Qed.

Lemma getUser_hands_back_whole_row_witness :
  exists user o,
    result (getUser (JNum 1) Sample.w1) =
      Return (VBody (response statusCode.OK message.SUCCESS (Some (userPayload user))))
    /\ heap Sample.w1 !! user = None
    /\ heap (after (getUser (JNum 1) Sample.w1)) !! user = Some o
    /\ read_prop "id" o = JNum 1
    /\ read_prop "email" o = JStr "alice@pay.here"
    /\ read_prop "password" o = JStr "$2b$secret"
    /\ read_prop "nickname" o = JStr "alice"
    /\ read_prop "mbti" o = JStr "INTJ".
Proof.
  apply (getUser_hands_back_whole_row (JNum 1) Sample.w1 Sample.alice).
  - apply sample_db_ok.
  - reflexivity.
Defined.

(** ** editUser and login *)

Lemma login_result_same ext email password w1 w2 :
  db_ok 1 w1 -> db_ok 1 w2 ->
  table w1 = table w2 -> redis w1 = redis w2 ->
  result (login ext email password w1) = result (login ext email password w2).
Proof.
  intros H1 H2 Ht Hr. unfold login. rewrite !try_catch_result.
  destruct (User.select "email" (JStr email) (table w1)) as [r|] eqn:Hsel.
  - rewrite (login_try_known _ _ _ _ _ H1 Hsel).
    rewrite Ht in Hsel. rewrite (login_try_known _ _ _ _ _ H2 Hsel), Hr.
    reflexivity.
  - rewrite (login_try_unknown _ _ _ _ H1 Hsel).
    rewrite Ht in Hsel. rewrite (login_try_unknown _ _ _ _ H2 Hsel). reflexivity.
Qed.

Lemma editUser_frame w user o newNickname newMbti newPassword :
  heap w !! user = Some o ->
  let run := editUser user newNickname newMbti newPassword w in
  redis (after run) = redis w
  /\ (db_faults (after run) = db_faults w \/ db_faults (after run) = tail (db_faults w)).
Proof.
  intros H run. subst run. rewrite (editUser_run _ _ _ _ _ _ H). cbv zeta.
  set (o1 := fst _). set (w' := set_heap _ w).
  assert (H' : heap w' !! user = Some o1).
  { cbn [w' heap set_heap]. apply list_lookup_insert_eq. eapply lookup_lt_Some, H. }
  destruct (Nat.eqb _ 0).
  - split; [reflexivity | left; reflexivity].
  - unfold try_catch, editUser_try, User.save.
    rewrite bind_run, bind_run, (deref_run _ _ _ H').
    destruct (changed o1) as [|c cs] eqn:Hc.
    { cbn -[w' o1]. split; [reflexivity | left; reflexivity]. }
    rewrite bind_run.
    unfold db_query. destruct (db_faults w') as [|[] f] eqn:Ef; cbn -[w' o1];
      (split; [reflexivity |]); cbn [w' db_faults set_heap] in Ef; rewrite Ef;
      (left; reflexivity) || (right; reflexivity).
Qed.

(** X14. [editUser] does not change what [login] accepts: for a user
    object with no change pending, and so also after a call that passed a
    new password and answered 200, [login] answers every email and password
    as it did before the call. *)
Theorem editUser_then_login_as_before ext w user o newNickname newMbti newPassword
    email password :
  heap w !! user = Some o ->
  changed o = [] ->
  db_ok 2 w ->
  result (login ext email password
            (after (editUser user newNickname newMbti newPassword w))) =
  result (login ext email password w).
Proof.
  intros H Hc Hdb.
  destruct (editUser_leaves w user o newNickname newMbti newPassword H) as [_ Ht].
  destruct (editUser_frame w user o newNickname newMbti newPassword H) as [Hr Hf].
  cbv zeta in Ht, Hr, Hf.
  apply login_result_same.
  - unfold db_ok in *. destruct Hf as [-> | ->].
    + apply (db_ok_weaken 2 1 w); [lia | exact Hdb].
    + apply (db_ok_tick 1 w Hdb).
  - apply (db_ok_weaken 2 1 w); [lia | exact Hdb].
  - destruct Ht as [Ht | Ht]; rewrite Ht; [reflexivity |].
    apply write_back_unchanged.
    rewrite (edit_loop_changed _ _ _ (proj2 (dataToEdit_keys _ _ _))). exact Hc.
  - exact Hr.
Qed.

Lemma editUser_then_login_as_before_witness :
  result (login Sample.ext "alice@pay.here" "changed"
            (after (editUser 0%nat JNull JNull (JStr "changed") Sample.w1))) =
  result (login Sample.ext "alice@pay.here" "changed" Sample.w1).
Proof.
  apply (editUser_then_login_as_before Sample.ext Sample.w1 0%nat
           (User.load attributes Sample.alice) JNull JNull (JStr "changed")
           "alice@pay.here" "changed").
  - reflexivity.
  - reflexivity.
  - apply sample_db_ok.
Defined.

(** ** Failures of the collaborators, operation by operation *)

Lemma db_fails_at_query w :
  db_fails_at 0 w -> db_query w = (Throw "SequelizeDatabaseError", tick w).
Proof.
  intros [_ H]. unfold db_query, tick.
  destruct (db_faults w) as [|[] f]; try discriminate. reflexivity.
Qed.

Lemma db_fails_at_tick n w : db_fails_at (S n) w -> db_fails_at n (tick w).
Proof.
  intros [Hok H]. split; [apply db_ok_tick, Hok |].
  cbn [tick db_faults set_db_faults]. rewrite lookup_tail. exact H.
Qed.

Lemma findOne_fails col v attrs w :
  db_fails_at 0 w ->
  User.findOne col v attrs w = (Throw "SequelizeDatabaseError", tick w).
Proof.
  intros H. unfold User.findOne. rewrite bind_run, (db_fails_at_query w H). reflexivity.
Qed.

Lemma create_fails email password nickname w :
  db_fails_at 0 w ->
  User.create email password nickname w = (Throw "SequelizeDatabaseError", tick w).
Proof.
  intros H. unfold User.create. rewrite bind_run, (db_fails_at_query w H). reflexivity.
Qed.

(** What each handler makes of an exception of its [try] block. *)
Lemma login_handles ext email password w err :
  result (login_try ext email password w) = Throw err ->
  result (login ext email password w) = Return internal_server_error
  /\ last (log (after (login ext email password w))) =
     Some (logger_error ("login Service Err: " +:+ err)).
Proof.
  unfold login, try_catch, result, after.
  destruct (login_try ext email password w) as [[v|e] w1]; simpl; [discriminate |].
  intros [= ->]. split; [reflexivity | apply last_snoc].
Qed.

Lemma signUp_handles ext email password nickname w err :
  result (signUp_try ext email password nickname w) = Throw err ->
  result (signUp ext email password nickname w) = Return internal_server_error
  /\ last (log (after (signUp ext email password nickname w))) =
     Some (logger_error ("signUp Service Err: " +:+ err)).
Proof.
  unfold signUp, try_catch, result, after.
  destruct (signUp_try ext email password nickname w) as [[v|e] w1]; simpl; [discriminate |].
  intros [= ->]. split; [reflexivity | apply last_snoc].
Qed.

Lemma db_error_handles (m : M value) w err :
  result (m w) = Throw err ->
  result (try_catch m db_error_catch w) = Return db_error
  /\ last (log (after (try_catch m db_error_catch w))) = Some (console_log err).
Proof.
  unfold try_catch, result, after.
  destruct (m w) as [[v|e] w1]; simpl; [discriminate |].
  intros [= ->]. split; [reflexivity | apply last_snoc].
Qed.

(** Where the [try] block of each operation throws. *)
Lemma login_try_lookup_fails ext email password w :
  db_fails_at 0 w ->
  result (login_try ext email password w) = Throw "SequelizeDatabaseError".
Proof.
  intros H. unfold login_try. rewrite bind_run, (findOne_fails _ _ _ w H). reflexivity.
Qed.

Lemma signUp_try_first_lookup_fails ext email password nickname w :
  db_fails_at 0 w ->
  result (signUp_try ext email password nickname w) = Throw "SequelizeDatabaseError".
Proof.
  intros H. unfold signUp_try. rewrite bind_run, (findOne_fails _ _ _ w H). reflexivity.
Qed.

Lemma signUp_try_second_lookup_fails ext email password nickname w :
  User.select "email" (JStr email) (table w) = None ->
  db_fails_at 1 w ->
  result (signUp_try ext email password nickname w) = Throw "SequelizeDatabaseError".
Proof.
  intros He H. unfold signUp_try.
  rewrite bind_run, (findOne_ok 0 _ _ _ w (proj1 H)), He.
  rewrite bind_run, (findOne_fails _ _ _ _ (db_fails_at_tick 0 w H)). reflexivity.
Qed.

Lemma signUp_try_before_create ext email password nickname w :
  User.select "email" (JStr email) (table w) = None ->
  User.select "nickname" (JStr nickname) (table w) = None ->
  db_ok 2 w ->
  signUp_try ext email password nickname w =
  match bcrypt_hashSync ext password 10 with
  | Return encryptedPassword =>
      (User.create (JStr email) encryptedPassword (JStr nickname) ≫= fun newUser =>
       get_prop newUser "user_id" ≫= fun userId =>
       signTokens ext userId ≫= fun '(accessToken, refreshToken) =>
       mret (VPair statusCode.OK
               (response statusCode.OK message.SUCCESS
                  (Some (signUpResponse accessToken refreshToken)))))
        (tick (tick w))
  | Throw err => (Throw err, tick (tick w))
  end.
Proof.
  intros He Hn Hdb. unfold signUp_try.
  rewrite bind_run, (findOne_ok 1 _ _ _ w Hdb), He.
  rewrite bind_run, (findOne_ok 0 _ _ _ (tick w) (db_ok_tick 1 w Hdb)).
  change (table (tick w)) with (table w). rewrite Hn.
  rewrite bind_run. unfold lift at 1.
  destruct (bcrypt_hashSync ext password 10); reflexivity.
Qed.

Lemma signUp_try_create_fails ext email password nickname w hash :
  User.select "email" (JStr email) (table w) = None ->
  User.select "nickname" (JStr nickname) (table w) = None ->
  bcrypt_hashSync ext password 10 = Return hash ->
  db_fails_at 2 w ->
  result (signUp_try ext email password nickname w) = Throw "SequelizeDatabaseError".
Proof.
  intros He Hn Hh H.
  rewrite (signUp_try_before_create _ _ _ _ _ He Hn (proj1 H)), Hh.
  rewrite bind_run, (create_fails _ _ _ _ (db_fails_at_tick 0 _ (db_fails_at_tick 1 w H))).
  reflexivity.
Qed.

Lemma signUp_try_hash_fails ext email password nickname w err :
  User.select "email" (JStr email) (table w) = None ->
  User.select "nickname" (JStr nickname) (table w) = None ->
  bcrypt_hashSync ext password 10 = Throw err ->
  db_ok 2 w ->
  result (signUp_try ext email password nickname w) = Throw err.
Proof.
  intros He Hn Hh Hdb. rewrite (signUp_try_before_create _ _ _ _ _ He Hn Hdb), Hh.
  reflexivity.
Qed.

Lemma getUser_try_lookup_fails key w :
  (exists n, key = JNum n) \/ (exists s, key = JStr s) ->
  db_fails_at 0 w ->
  result (getUser_try key w) = Throw "SequelizeDatabaseError".
Proof.
  intros Hk H. unfold getUser_try, User.findByPk. rewrite bind_run.
  destruct Hk as [[n ->] | [s ->]].
  - rewrite (findOne_fails _ _ _ w H). reflexivity.
  - destruct (integer_of_string s); rewrite (findOne_fails _ _ _ w H); reflexivity.
Qed.

Lemma save_fails w user o :
  heap w !! user = Some o ->
  changed o <> [] ->
  db_fails_at 0 w ->
  User.save user w = (Throw "SequelizeDatabaseError", tick w).
Proof.
  intros H Hc Hf. unfold User.save. rewrite bind_run, (deref_run _ _ _ H).
  destruct (changed o); [contradiction |].
  rewrite bind_run, (db_fails_at_query w Hf). reflexivity.
Qed.

Lemma deleteUser_try_save_fails w user o :
  heap w !! user = Some o ->
  db_fails_at 0 w ->
  result (deleteUser_try user w) = Throw "SequelizeDatabaseError".
Proof.
  intros H Hf. unfold deleteUser_try.
  rewrite bind_run, (get_prop_run _ _ _ _ H), bind_run, (get_prop_run _ _ _ _ H).
  rewrite bind_run. unfold User.destroy.
  rewrite bind_run, (deref_run _ _ _ H), bind_run. cbn [store modify].
  set (w' := set_heap _ w).
  assert (H' : heap w' !! user = Some (User.deleting o)).
  { cbn [w' heap set_heap]. apply list_lookup_insert_eq. eapply lookup_lt_Some, H. }
  rewrite (save_fails w' user _ H'); [reflexivity | discriminate | exact Hf].
Qed.

Lemma deleteUser_try_without_user w user :
  heap w !! user = None -> result (deleteUser_try user w) = Throw "TypeError".
Proof.
  intros H.
  assert (Hg : forall key, get_prop user key w = (Throw "TypeError", w)).
  { intros key. unfold get_prop, deref. rewrite bind_run, H. reflexivity. }
  unfold deleteUser_try. rewrite bind_run, Hg. reflexivity.
Qed.

Lemma editUser_save_fails w user o newNickname newMbti newPassword :
  heap w !! user = Some o ->
  changed o <> [] ->
  snd (edit_loop (dataToEdit (default_null newNickname) (default_null newMbti)
                             (default_null newPassword)) o []) <> [] ->
  db_fails_at 0 w ->
  result (editUser user newNickname newMbti newPassword w) = Return db_error
  /\ last (log (after (editUser user newNickname newMbti newPassword w))) =
     Some (console_log "SequelizeDatabaseError").
Proof.
  intros H Hc Hu Hf. rewrite (editUser_run _ _ _ _ _ _ H). cbv zeta.
  set (entries := dataToEdit _ _ _) in *.
  destruct (snd (edit_loop entries o [])) as [|u us] eqn:Eu; [contradiction |].
  cbn [List.length Nat.eqb].
  set (w' := set_heap _ w).
  assert (H' : heap w' !! user = Some (fst (edit_loop entries o []))).
  { cbn [w' heap set_heap]. apply list_lookup_insert_eq. eapply lookup_lt_Some, H. }
  apply db_error_handles. unfold editUser_try.
  rewrite bind_run, (save_fails w' user _ H'); [reflexivity | | exact Hf].
  unfold entries. rewrite (edit_loop_changed _ _ _ (proj2 (dataToEdit_keys _ _ _))).
  exact Hc.
Qed.

(** C3, amended. [login], [signUp], [getUser], [editUser] (given a user
    object) and [deleteUser] never throw, and each failure of a collaborator
    they call inside their [try] block ends in the generic error response:
    the database failing at any of its calls, bcrypt throwing, the token
    utility throwing. [login] and [signUp] answer DB_ERROR with
    INTERNAL_SERVER_ERROR and log the error; [getUser], [editUser] and
    [deleteUser] answer DB_ERROR with DB_ERROR and print it, [deleteUser]
    also when it is handed no user object. [logout] does not wait for the
    cache and answers 200 whatever happens to it. *)
Theorem failures_contained ext :
  (forall email password w,
     never_throws (login ext email password w)
     /\ (db_fails_at 0 w ->
         answers_and_logs (login ext email password w) internal_server_error
           (logger_error "login Service Err: SequelizeDatabaseError"))
     /\ (forall r err,
           db_ok 1 w ->
           User.select "email" (JStr email) (table w) = Some r ->
           bcrypt_compareSync ext password (Row.password r) = Throw err ->
           answers_and_logs (login ext email password w) internal_server_error
             (logger_error ("login Service Err: " +:+ err)))
     /\ (forall r err cache,
           db_ok 1 w ->
           User.select "email" (JStr email) (table w) = Some r ->
           bcrypt_compareSync ext password (Row.password r) = Return true ->
           jwt_signTokens ext (JNum (Row.id r)) (redis w) = (Throw err, cache) ->
           answers_and_logs (login ext email password w) internal_server_error
             (logger_error ("login Service Err: " +:+ err))))
  /\ (forall email password nickname w,
        never_throws (signUp ext email password nickname w)
        /\ (db_fails_at 0 w ->
            answers_and_logs (signUp ext email password nickname w) internal_server_error
              (logger_error "signUp Service Err: SequelizeDatabaseError"))
        /\ (~ taken "email" (JStr email) (table w) ->
            db_fails_at 1 w ->
            answers_and_logs (signUp ext email password nickname w) internal_server_error
              (logger_error "signUp Service Err: SequelizeDatabaseError"))
        /\ (~ taken "email" (JStr email) (table w) ->
            ~ taken "nickname" (JStr nickname) (table w) ->
            (forall err,
               db_ok 2 w ->
               bcrypt_hashSync ext password 10 = Throw err ->
               answers_and_logs (signUp ext email password nickname w)
                 internal_server_error
                 (logger_error ("signUp Service Err: " +:+ err)))
            /\ (forall hash,
                  bcrypt_hashSync ext password 10 = Return hash ->
                  db_fails_at 2 w ->
                  answers_and_logs (signUp ext email password nickname w)
                    internal_server_error
                    (logger_error "signUp Service Err: SequelizeDatabaseError"))
            /\ (forall hash err cache,
                  bcrypt_hashSync ext password 10 = Return hash ->
                  db_ok 3 w ->
                  jwt_signTokens ext JUndefined (redis w) = (Throw err, cache) ->
                  answers_and_logs (signUp ext email password nickname w)
                    internal_server_error
                    (logger_error ("signUp Service Err: " +:+ err)))))
  /\ (forall userId w,
        never_throws (getUser userId w)
        /\ ((exists n, userId = JNum n) \/ (exists s, userId = JStr s) ->
            db_fails_at 0 w ->
            answers_and_logs (getUser userId w) db_error
              (console_log "SequelizeDatabaseError")))
  /\ (forall user newNickname newMbti newPassword w o,
        heap w !! user = Some o ->
        never_throws (editUser user newNickname newMbti newPassword w)
        /\ (changed o <> [] ->
            snd (edit_loop (dataToEdit (default_null newNickname) (default_null newMbti)
                                       (default_null newPassword)) o []) <> [] ->
            db_fails_at 0 w ->
            answers_and_logs (editUser user newNickname newMbti newPassword w) db_error
              (console_log "SequelizeDatabaseError")))
  /\ (forall user w,
        never_throws (deleteUser user w)
        /\ (is_Some (heap w !! user) ->
            db_fails_at 0 w ->
            answers_and_logs (deleteUser user w) db_error
              (console_log "SequelizeDatabaseError"))
        /\ (heap w !! user = None ->
            answers_and_logs (deleteUser user w) db_error (console_log "TypeError")))
  /\ (forall userId w,
        result (logout userId w) =
        Return (VPair (JNum 200) (response (JNum 200) message.SUCCESS None))).
Proof.
  repeat apply conj.
  - intros email password w. repeat apply conj.
    + apply hands_back_pair_never_throws, always_pair, login_pair.
    + intros Hf. apply login_handles, login_try_lookup_fails, Hf.
    + intros r err Hdb Hsel Hc. apply login_handles.
      rewrite (login_try_known _ _ _ _ _ Hdb Hsel), Hc. reflexivity.
    + intros r err cache Hdb Hsel Hc Hs. apply login_handles.
      rewrite (login_try_known _ _ _ _ _ Hdb Hsel), Hc, Hs. reflexivity.
  - intros email password nickname w. repeat apply conj.
    + apply hands_back_pair_never_throws, always_pair, signUp_pair.
    + intros Hf. apply signUp_handles, signUp_try_first_lookup_fails, Hf.
    + intros He%select_None Hf.
      apply signUp_handles, signUp_try_second_lookup_fails; assumption.
    + intros He%select_None Hn%select_None. repeat apply conj.
      * intros err Hdb Hh. apply signUp_handles.
        apply signUp_try_hash_fails; assumption.
      * intros hash Hh Hf. apply signUp_handles.
        apply (signUp_try_create_fails _ _ _ _ _ hash); assumption.
      * intros hash err cache Hh Hdb Hs. apply signUp_handles.
        rewrite (proj1 (signUp_try_fresh _ _ _ _ _ _ Hdb He Hn Hh)), Hs. reflexivity.
  - intros userId w. split.
    + apply hands_back_body_never_throws, always_body, getUser_body.
    + intros Hk Hf. apply db_error_handles, getUser_try_lookup_fails; assumption.
  - intros user newNickname newMbti newPassword w o H. split.
    + eapply hands_back_body_never_throws, editUser_body, H.
    + intros Hc Hu Hf. unfold answers_and_logs.
      apply (editUser_save_fails _ _ _ _ _ _ H Hc Hu Hf).
  - intros user w. repeat apply conj.
    + apply hands_back_body_never_throws, always_body, deleteUser_body.
    + intros [o H] Hf. apply db_error_handles. apply (deleteUser_try_save_fails _ _ _ H Hf).
    + intros H. apply db_error_handles, deleteUser_try_without_user, H.
  - apply logout_result.
Qed.

Lemma sample_db_fails_at_0 : db_fails_at 0 Sample.db_down.
Proof. split; [constructor | reflexivity]. Qed.

Lemma failures_contained_witness :
  (answers_and_logs (login Sample.ext "alice@pay.here" "secret" Sample.db_down)
     internal_server_error (logger_error "login Service Err: SequelizeDatabaseError")
   /\ answers_and_logs (login Faulty.no_bcrypt "alice@pay.here" "secret" Sample.w1)
        internal_server_error (logger_error "login Service Err: Error: bcrypt")
   /\ answers_and_logs (login Faulty.no_tokens "alice@pay.here" "secret" Sample.w1)
        internal_server_error (logger_error "login Service Err: JsonWebTokenError"))
  /\ (answers_and_logs (signUp Sample.ext "bob@pay.here" "pw" "bob" Sample.db_down)
        internal_server_error (logger_error "signUp Service Err: SequelizeDatabaseError")
      /\ answers_and_logs
           (signUp Sample.ext "bob@pay.here" "pw" "bob" (set_db_faults [false; true] Sample.w1))
           internal_server_error (logger_error "signUp Service Err: SequelizeDatabaseError")
      /\ answers_and_logs (signUp Faulty.no_bcrypt "bob@pay.here" "pw" "bob" Sample.w1)
           internal_server_error (logger_error "signUp Service Err: Error: bcrypt")
      /\ answers_and_logs
           (signUp Sample.ext "bob@pay.here" "pw" "bob"
              (set_db_faults [false; false; true] Sample.w1))
           internal_server_error (logger_error "signUp Service Err: SequelizeDatabaseError")
      /\ answers_and_logs (signUp Faulty.no_tokens "bob@pay.here" "pw" "bob" Sample.w1)
           internal_server_error (logger_error "signUp Service Err: JsonWebTokenError"))
  /\ answers_and_logs (getUser (JStr "1") Sample.db_down) db_error
       (console_log "SequelizeDatabaseError")
  /\ answers_and_logs (editUser 0%nat (JStr "al") JNull JNull Pending.db_down) db_error
       (console_log "SequelizeDatabaseError")
  /\ (answers_and_logs (deleteUser 0%nat Sample.db_down) db_error
        (console_log "SequelizeDatabaseError")
      /\ answers_and_logs (deleteUser 7%nat Sample.w1) db_error (console_log "TypeError")).
Proof.
  split; [| split; [| split; [| split]]].
  - pose proof (proj1 (failures_contained Sample.ext)) as Hup.
    pose proof (proj1 (failures_contained Faulty.no_bcrypt)) as Hbcrypt.
    pose proof (proj1 (failures_contained Faulty.no_tokens)) as Htokens.
    split; [| split].
    + apply (proj1 (proj2 (Hup "alice@pay.here" "secret" Sample.db_down))).
      exact sample_db_fails_at_0.
    + apply (proj1 (proj2 (proj2 (Hbcrypt "alice@pay.here" "secret" Sample.w1)))
               Sample.alice "Error: bcrypt"); [apply sample_db_ok | reflexivity..].
    + apply (proj2 (proj2 (proj2 (Htokens "alice@pay.here" "secret" Sample.w1)))
               Sample.alice "JsonWebTokenError" (redis Sample.w1));
        [apply sample_db_ok | reflexivity..].
  - pose proof (proj1 (proj2 (failures_contained Sample.ext))) as Hup.
    pose proof (proj1 (proj2 (failures_contained Faulty.no_bcrypt))) as Hbcrypt.
    pose proof (proj1 (proj2 (failures_contained Faulty.no_tokens))) as Htokens.
    split; [| split; [| split; [| split]]].
    + apply (proj1 (proj2 (Hup "bob@pay.here" "pw" "bob" Sample.db_down))).
      exact sample_db_fails_at_0.
    + apply (proj1 (proj2 (proj2 (Hup "bob@pay.here" "pw" "bob"
                                    (set_db_faults [false; true] Sample.w1))))).
      * exact sample_bob_free_email.
      * split; [repeat constructor | reflexivity].
    + apply (proj1 (proj2 (proj2 (proj2 (Hbcrypt "bob@pay.here" "pw" "bob" Sample.w1)))
                      sample_bob_free_email sample_bob_free_nickname)
               "Error: bcrypt"); [apply sample_db_ok | reflexivity].
    + apply (proj1 (proj2 (proj2 (proj2 (proj2 (Hup "bob@pay.here" "pw" "bob"
                 (set_db_faults [false; false; true] Sample.w1))))
               sample_bob_free_email sample_bob_free_nickname))
               (JStr "$2b$pw")); [reflexivity |].
      split; [repeat constructor | reflexivity].
    + apply (proj2 (proj2 (proj2 (proj2 (proj2 (Htokens "bob@pay.here" "pw" "bob" Sample.w1)))
               sample_bob_free_email sample_bob_free_nickname))
               (JStr "$2b$pw") "JsonWebTokenError" (redis Sample.w1));
        [reflexivity | apply sample_db_ok | reflexivity].
  - apply (proj2 (proj1 (proj2 (proj2 (failures_contained Sample.ext)))
                    (JStr "1") Sample.db_down)).
    + right. exists "1". reflexivity.
    + exact sample_db_fails_at_0.
  - apply (proj2 (proj1 (proj2 (proj2 (proj2 (failures_contained Sample.ext))))
                    0%nat (JStr "al") JNull JNull Pending.db_down
                    (assign "nickname" (JStr "ally") (User.load attributes Sample.alice))
                    eq_refl)).
    + discriminate.
    + discriminate.
    + split; [constructor | reflexivity].
  - pose proof (proj1 (proj2 (proj2 (proj2 (proj2 (failures_contained Sample.ext))))))
      as Hdelete.
    split.
    + apply (proj1 (proj2 (Hdelete 0%nat Sample.db_down))).
      * eexists. reflexivity.
      * exact sample_db_fails_at_0.
    + apply (proj2 (proj2 (Hdelete 7%nat Sample.w1))). reflexivity.
Defined.

(** ** The conversions of the model, on examples *)

Example String_of_numbers :
  to_String (JNum 42) = "42"
  /\ to_String (JNum (-7)) = "-7"
  /\ to_String (JNum (10 ^ 21)) = "1e+21"
  /\ to_String (JNum (125 * 10 ^ 20)) = "1.25e+22".
Proof. repeat split. Qed.

Example integer_of_string_examples :
  integer_of_string "1" = Some 1
  /\ integer_of_string "-12" = Some (-12)
  /\ integer_of_string "" = None
  /\ integer_of_string "1abc" = None.
Proof. repeat split. Qed.

(** A key given as a string of digits finds the row of that number; [null]
    finds nothing, also with the database down. *)
Example getUser_by_string_key :
  result (getUser (JStr "1") Sample.w1) =
    Return (VBody (response statusCode.OK message.SUCCESS (Some (userPayload 1%nat))))
  /\ getUser JNull Sample.db_down =
     (Return (VBody (errResponse statusCode.NO_CONTENT message.NULL_VALUE)), Sample.db_down).
Proof. split; reflexivity. Qed.

(** With no change pending, [save] sends nothing: [editUser] answers 200
    with the database down. *)
Example editUser_saves_nothing_when_unchanged :
  result (editUser 0%nat (JStr "ally") JNull JNull Sample.db_down) =
  Return (VBody (response statusCode.OK message.SUCCESS None)).
Proof. reflexivity. Qed.
